(** * ADC uclass (drivers/adc/adc-uclass.c): a shallow embedding

    The uclass layer sits between callers and an ADC driver.  It checks
    the requested channel (or channel mask) against the device's
    [channel_mask], enables the optional supply regulators, polls the
    driver's read operation while it answers [-EBUSY], emulates a
    multi-channel conversion by single-channel ones when the driver has
    no multi-channel start, and reports the VDD/VSS reference voltages.

    C [int] and [unsigned int] values are integers of [Z] with the 32-bit
    wrap-around written out.  The driver, the regulators and the device
    tree are external: they act on an abstract world [W].  Every call
    that leaves the uclass layer is recorded in a trace, so that "is
    invoked n times" and "is never invoked" are statements about the
    trace.  Console output ([printf], [pr_err]) is not modelled. *)

From stdpp Require Import base numbers list strings sorting.
From Stdlib Require Import ZArith Lia.
From Stdlib Require DecimalString.

Local Open Scope Z_scope.

(** ** Machine integers *)

Module CInt.

Definition INT_MAX : Z := 2 ^ 31 - 1.
Definition INT_MIN : Z := - 2 ^ 31.
Definition UINT_MAX : Z := 2 ^ 32 - 1.

Definition is_int (z : Z) : Prop := INT_MIN <= z <= INT_MAX.
Definition is_unsigned (z : Z) : Prop := 0 <= z <= UINT_MAX.

(** Conversion to [unsigned int]: reduction modulo 2^32. *)
Definition to_unsigned (z : Z) : Z := z mod 2 ^ 32.

(** Conversion to [int]: the representative in [INT_MIN, INT_MAX]. *)
Definition to_int (z : Z) : Z := (z + 2 ^ 31) mod 2 ^ 32 - 2 ^ 31.

(** [a << n] on [int].  C defines it for 0 <= n <= 31 only (and gcc
    gives the wrapped value at n = 31).  Outside that range the compiled
    code shifts by the count modulo 32, as the shift instruction does on
    a 32-bit operand of the 64-bit ARM cores this tree is built for, and
    so does the model. *)
Definition shl_int (a n : Z) : Z := to_int (Z.shiftl a (n mod 32)).

(** [a * b] on [int], wrapping. *)
Definition mul_int (a b : Z) : Z := to_int (a * b).

End CInt.
Import CInt.

(** ** Error numbers

    The numbers of U-Boot's <errno.h>.  The functions return them
    negated. *)

Definition EBUSY : Z := 16.
Definition EINVAL : Z := 22.
Definition ENOSYS : Z := 38.
Definition ENODATA : Z := 61.

(** ** Data *)

(** A [struct udevice *] naming a supply regulator; [None] in a field of
    that type is the NULL pointer. *)
Definition udevice : Type := nat.

(** [struct adc_channel] of <adc.h>: what the source writes through its
    [channels] pointer. *)
Record adc_channel : Type := mk_adc_channel {
  id : Z;
  data : Z
}.

(** [struct adc_uclass_platdata] of <adc.h>, with the fields the uclass
    layer reads or writes.  The masks and timeouts are [unsigned int],
    the microvolt fields are [int]. *)
Record adc_uclass_platdata : Type := mk_platdata {
  data_mask : Z;
  data_timeout_us : Z;
  multidata_timeout_us : Z;
  channel_mask : Z;
  vdd_supply : option udevice;
  vss_supply : option udevice;
  vdd_polarity_negative : bool;
  vss_polarity_negative : bool;
  vdd_microvolts : Z;
  vss_microvolts : Z
}.

Definition set_vdd_supply (r : option udevice) (p : adc_uclass_platdata) :=
  mk_platdata (data_mask p) (data_timeout_us p) (multidata_timeout_us p)
    (channel_mask p) r (vss_supply p) (vdd_polarity_negative p)
    (vss_polarity_negative p) (vdd_microvolts p) (vss_microvolts p).

Definition set_vss_supply (r : option udevice) (p : adc_uclass_platdata) :=
  mk_platdata (data_mask p) (data_timeout_us p) (multidata_timeout_us p)
    (channel_mask p) (vdd_supply p) r (vdd_polarity_negative p)
    (vss_polarity_negative p) (vdd_microvolts p) (vss_microvolts p).

Definition set_vdd_microvolts (v : Z) (p : adc_uclass_platdata) :=
  mk_platdata (data_mask p) (data_timeout_us p) (multidata_timeout_us p)
    (channel_mask p) (vdd_supply p) (vss_supply p) (vdd_polarity_negative p)
    (vss_polarity_negative p) v (vss_microvolts p).

Definition set_vss_microvolts (v : Z) (p : adc_uclass_platdata) :=
  mk_platdata (data_mask p) (data_timeout_us p) (multidata_timeout_us p)
    (channel_mask p) (vdd_supply p) (vss_supply p) (vdd_polarity_negative p)
    (vss_polarity_negative p) (vdd_microvolts p) v.

(** ** check_channel *)

Definition CHECK_NUMBER : bool := true.
Definition CHECK_MASK : bool := negb CHECK_NUMBER.

(** [value] is the [int] argument: a channel number under [CHECK_NUMBER],
    a channel mask converted to [int] under [CHECK_MASK].  The result is
    0 or [-EINVAL]. *)
Definition check_channel (uc_pdata : adc_uclass_platdata) (value : Z)
    (number_or_mask : bool) : Z :=
  let mask := to_unsigned (if number_or_mask then shl_int 1 value else value) in
  if (channel_mask uc_pdata >=? mask)
     && negb (Z.land (channel_mask uc_pdata) mask =? 0)
  then 0
  else - EINVAL.

(** The rule as the specification words it: the request is legal when
    every requested bit is a bit of the device's mask. *)
Definition mask_is_subset (requested mask : Z) : Prop :=
  Z.land requested mask = requested.

#[global] Instance mask_is_subset_dec requested mask :
  Decision (mask_is_subset requested mask).
Proof. unfold mask_is_subset. apply _. Defined.

(** ** Calls that leave the uclass layer *)

Inductive event : Type :=
| EvStop
| EvStartChannel (channel : Z)
| EvStartChannels (mask : Z)
| EvChannelData (channel : Z)
| EvChannelsData (mask : Z)
| EvRegulatorSetEnable (supply : udevice) (enable : bool)
| EvRegulatorGetValue (supply : option udevice)
| EvGetSupplyRegulator (name : string)
| EvGetDeviceByName (name : string)
| EvSdelay (loops : Z).

Definition is_channel_data (e : event) : bool :=
  match e with EvChannelData _ => true | _ => false end.

(** How many driver reads of a single channel a trace holds. *)
Definition channel_data_calls (t : list event) : nat :=
  length (filter (fun e => is_channel_data e = true) t).

Section Uclass.

Context {W : Type}.

(** [struct adc_ops] of <adc.h>: the driver's operations; [None] is a
    NULL function pointer.  An operation runs on the world and leaves
    the uclass platdata alone.  A read receives what the caller's
    [*data] (or array) holds and gives back what it holds afterwards,
    next to the [int] result. *)
Record adc_ops : Type := mk_adc_ops {
  start_channel : option (Z -> W -> Z * W);
  start_channels : option (Z -> W -> Z * W);
  channel_data : option (Z -> Z -> W -> (Z * Z) * W);
  channels_data :
    option (Z -> list adc_channel -> W -> (Z * list adc_channel) * W);
  stop : option (W -> Z * W)
}.

(** Functions of other compilation units: the regulator uclass and the
    device registry.  [device_get_supply_regulator name old] gives the
    result and the new content of the pointer it is handed. *)
Record externals : Type := mk_externals {
  regulator_set_enable : udevice -> bool -> W -> Z * W;
  regulator_get_value : option udevice -> W -> Z * W;
  device_get_supply_regulator :
    string -> option udevice -> W -> (Z * option udevice) * W;
  uclass_get_device_by_name : string -> W -> Z * W
}.

(** The state a call runs in: the world of the driver and the
    regulators, the device's uclass platdata, and the trace. *)
Record machine : Type := mk_machine {
  world : W;
  uc_pdata : adc_uclass_platdata;
  trace : list event
}.

Definition M (A : Type) : Type := machine -> A * machine.

Definition get_pdata : M adc_uclass_platdata := fun s => (uc_pdata s, s).

Definition put_pdata (p : adc_uclass_platdata) : M unit :=
  fun s => (tt, mk_machine (world s) p (trace s)).

(** An external call: the event joins the trace, the callee runs on the
    world. *)
Definition call {A} (e : event) (f : W -> A * W) : M A :=
  fun s => let (a, w) := f (world s) in
           (a, mk_machine w (uc_pdata s) (trace s ++ [e])).

End Uclass.

Arguments adc_ops : clear implicits.
Arguments externals : clear implicits.
Arguments machine : clear implicits.
Arguments M : clear implicits.

(** The state monad of [machine]s, with stdpp's notations
    [x ← m; k] and [mret]. *)
#[global] Instance M_ret {W} : MRet (M W) := fun A a s => (a, s).

#[global] Instance M_bind {W} : MBind (M W) :=
  fun A B k m s => let (a, s') := m s in k a s'.

Definition sdelay {W} (loops : Z) : M W unit :=
  call (EvSdelay loops) (fun w => (tt, w)).

(** ** The uclass functions *)

Section Functions.

Context {W : Type}.

(** Build configuration.  [ADC_MAX_CHANNEL] is defined in include/adc.h,
    which is not among the sources: it stays a parameter. *)
Variable CONFIG_ADC_REQ_REGULATOR : bool.
Variable ADC_MAX_CHANNEL : Z.

Variable ops : adc_ops W.
Variable ext : externals W.

Definition adc_supply_enable : M W Z :=
  if CONFIG_ADC_REQ_REGULATOR then
    pd ← get_pdata;
    ret ← match vdd_supply pd with
          | Some vdd => call (EvRegulatorSetEnable vdd true)
                          (regulator_set_enable ext vdd true)
          | None => mret 0
          end;
    match ret =? 0, vss_supply pd with
    | true, Some vss => call (EvRegulatorSetEnable vss true)
                          (regulator_set_enable ext vss true)
    | _, _ => mret ret
    end
  else mret 0.

(** The platdata of a device of the model is always there, so the NULL
    test of the source has no counterpart. *)
Definition adc_data_mask : M W (Z * Z) :=
  pd ← get_pdata;
  mret (0, data_mask pd).

Definition adc_stop : M W Z :=
  match stop ops with
  | None => mret (- ENOSYS)
  | Some f => call EvStop f
  end.

Definition adc_start_channel (channel : Z) : M W Z :=
  match start_channel ops with
  | None => mret (- ENOSYS)
  | Some f =>
      pd ← get_pdata;
      let ret := check_channel pd channel CHECK_NUMBER in
      if negb (ret =? 0) then mret ret else
      ret ← adc_supply_enable;
      if negb (ret =? 0) then mret ret else
      call (EvStartChannel channel) (f channel)
  end.

Definition adc_start_channels (channel_mask : Z) : M W Z :=
  match start_channels ops with
  | None => mret (- ENOSYS)
  | Some f =>
      pd ← get_pdata;
      let ret := check_channel pd (to_int channel_mask) CHECK_MASK in
      if negb (ret =? 0) then mret ret else
      ret ← adc_supply_enable;
      if negb (ret =? 0) then mret ret else
      call (EvStartChannels channel_mask) (f channel_mask)
  end.

(** The [do ... while (timeout_us--)] loop of [adc_channel_data]:
    [timeout_us] is the counter before the test that ends the current
    round. *)
Fixpoint channel_data_loop (f : Z -> Z -> W -> (Z * Z) * W)
    (channel data : Z) (timeout_us : nat) : M W (Z * Z) :=
  '(ret, data) ← call (EvChannelData channel) (f channel data);
  if (ret =? 0) || negb (ret =? - EBUSY) then mret (ret, data) else
  _ ← sdelay 5;
  match timeout_us with
  | O => mret (ret, data)
  | S timeout_us => channel_data_loop f channel data timeout_us
  end.

(** [data] is what [*data] holds at the call; the second component of
    the result is what it holds at the return. *)
Definition adc_channel_data (channel data : Z) : M W (Z * Z) :=
  pd ← get_pdata;
  let timeout_us := data_timeout_us pd in
  match channel_data ops with
  | None => mret (- ENOSYS, data)
  | Some f =>
      let ret := check_channel pd channel CHECK_NUMBER in
      if negb (ret =? 0) then mret (ret, data) else
      channel_data_loop f channel data (Z.to_nat timeout_us)
  end.

Fixpoint channels_data_loop
    (f : Z -> list adc_channel -> W -> (Z * list adc_channel) * W)
    (channel_mask : Z) (channels : list adc_channel) (timeout_us : nat)
    : M W (Z * list adc_channel) :=
  '(ret, channels) ← call (EvChannelsData channel_mask) (f channel_mask channels);
  if (ret =? 0) || negb (ret =? - EBUSY) then mret (ret, channels) else
  _ ← sdelay 5;
  match timeout_us with
  | O => mret (ret, channels)
  | S timeout_us => channels_data_loop f channel_mask channels timeout_us
  end.

Definition adc_channels_data (channel_mask : Z) (channels : list adc_channel)
    : M W (Z * list adc_channel) :=
  pd ← get_pdata;
  let timeout_us := multidata_timeout_us pd in
  match channels_data ops with
  | None => mret (- ENOSYS, channels)
  | Some f =>
      let ret := check_channel pd (to_int channel_mask) CHECK_MASK in
      if negb (ret =? 0) then mret (ret, channels) else
      channels_data_loop f channel_mask channels (Z.to_nat timeout_us)
  end.

Definition adc_channel_single_shot (name : string) (channel data : Z)
    : M W (Z * Z) :=
  ret ← call (EvGetDeviceByName name) (uclass_get_device_by_name ext name);
  if negb (ret =? 0) then mret (ret, data) else
  ret ← adc_start_channel channel;
  if negb (ret =? 0) then mret (ret, data) else
  '(ret, data) ← adc_channel_data channel data;
  if negb (ret =? 0) then mret (ret, data) else
  mret (0, data).

(** The [for] loop of [_adc_channels_single_shot].  [rounds] counts the
    channels from [channel] to [ADC_MAX_CHANNEL]; [channels] is the
    caller's array and [pos] the offset the advancing pointer has
    reached; [data] is the local variable, kept from round to round.
    A write past the end of the array is undefined in C; the list
    update leaves the array as it is there. *)
Fixpoint single_shot_loop (rounds : nat) (channel channel_mask data : Z)
    (channels : list adc_channel) (pos : nat) : M W (Z * list adc_channel) :=
  match rounds with
  | O => mret (0, channels)
  | S rounds =>
      if Z.land (Z.shiftr channel_mask channel) 1 =? 0
      then single_shot_loop rounds (channel + 1) channel_mask data channels pos
      else
        ret ← adc_start_channel channel;
        if negb (ret =? 0) then mret (ret, channels) else
        '(ret, data) ← adc_channel_data channel data;
        if negb (ret =? 0) then mret (ret, channels) else
        single_shot_loop rounds (channel + 1) channel_mask data
          (<[pos := mk_adc_channel channel data]> channels) (S pos)
  end.

(** [data] stands for the indeterminate first content of the local
    variable of that name. *)
Definition _adc_channels_single_shot (channel_mask data : Z)
    (channels : list adc_channel) : M W (Z * list adc_channel) :=
  single_shot_loop (Z.to_nat (ADC_MAX_CHANNEL + 1)) 0 channel_mask data
    channels 0%nat.

Definition adc_channels_single_shot (name : string) (channel_mask data : Z)
    (channels : list adc_channel) : M W (Z * list adc_channel) :=
  ret ← call (EvGetDeviceByName name) (uclass_get_device_by_name ext name);
  if negb (ret =? 0) then mret (ret, channels) else
  ret ← adc_start_channels channel_mask;
  if negb (ret =? 0) then
    (* try_manual: *)
    if negb (ret =? - ENOSYS) then mret (ret, channels) else
    _adc_channels_single_shot channel_mask data channels
  else
  '(ret, channels) ← adc_channels_data channel_mask channels;
  if negb (ret =? 0) then mret (ret, channels) else
  mret (0, channels).

Definition adc_vdd_platdata_update : M W Z :=
  if CONFIG_ADC_REQ_REGULATOR then
    pd ← get_pdata;
    '(ret, supply) ← call (EvGetSupplyRegulator "vdd-supply")
                       (device_get_supply_regulator ext "vdd-supply" (vdd_supply pd));
    _ ← put_pdata (set_vdd_supply supply pd);
    if negb (ret =? 0) then mret ret else
    ret ← call (EvRegulatorGetValue supply) (regulator_get_value ext supply);
    if ret <? 0 then mret ret else
    pd ← get_pdata;
    _ ← put_pdata (set_vdd_microvolts ret pd);
    mret 0
  else mret 0.

Definition adc_vss_platdata_update : M W Z :=
  if CONFIG_ADC_REQ_REGULATOR then
    pd ← get_pdata;
    '(ret, supply) ← call (EvGetSupplyRegulator "vss-supply")
                       (device_get_supply_regulator ext "vss-supply" (vss_supply pd));
    _ ← put_pdata (set_vss_supply supply pd);
    if negb (ret =? 0) then mret ret else
    ret ← call (EvRegulatorGetValue supply) (regulator_get_value ext supply);
    if ret <? 0 then mret ret else
    pd ← get_pdata;
    _ ← put_pdata (set_vss_microvolts ret pd);
    mret 0
  else mret 0.

(** [uV] is what [*uV] holds at the call; the second component of the
    result is what it holds at the return. *)
Definition adc_vdd_value (uV : Z) : M W (Z * Z) :=
  pd ← get_pdata;
  let value_sign := if vdd_polarity_negative pd then -1 else 1 in
  ret ← match vdd_supply pd with
        | None => mret 0 (* goto nodev *)
        | Some _ => adc_vdd_platdata_update
        end;
  if negb (ret =? 0) then mret (ret, uV) else
  (* nodev: *)
  pd ← get_pdata;
  if vdd_microvolts pd =? - ENODATA then mret (- ENODATA, uV) else
  mret (0, mul_int (vdd_microvolts pd) value_sign).

Definition adc_vss_value (uV : Z) : M W (Z * Z) :=
  pd ← get_pdata;
  let value_sign := if vss_polarity_negative pd then -1 else 1 in
  ret ← match vss_supply pd with
        | None => mret 0 (* goto nodev *)
        | Some _ => adc_vss_platdata_update
        end;
  if negb (ret =? 0) then mret (ret, uV) else
  (* nodev: *)
  pd ← get_pdata;
  if vss_microvolts pd =? - ENODATA then mret (- ENODATA, uV) else
  mret (0, mul_int (vss_microvolts pd) value_sign).

End Functions.

(** ** The specification's notions *)

(** The outcome of read number [n + 1] when the driver's read is invoked
    again and again on the same channel, each time on the world and the
    [*data] the read before it left. *)
Fixpoint nth_read {W} (f : Z -> Z -> W -> (Z * Z) * W) (channel : Z)
    (n : nat) (data : Z) (w : W) : (Z * Z) * W :=
  match n with
  | O => f channel data w
  | S n => let '((_, data'), w') := f channel data w in
           nth_read f channel n data' w'
  end.

(** The events of [n] reads that found the converter busy: each read is
    followed by the settle delay. *)
Definition busy_rounds (channel : Z) (n : nat) : list event :=
  concat (replicate n [EvChannelData channel; EvSdelay 5]).

(** The channels a mask requests, in ascending order, up to
    [ADC_MAX_CHANNEL]. *)
Definition requested_channels (ADC_MAX_CHANNEL channel_mask : Z) : list Z :=
  filter (fun c => Z.testbit channel_mask c = true)
    (seqZ 0 (ADC_MAX_CHANNEL + 1)).

Section Cycles.

Context {W : Type}.
Variable CONFIG_ADC_REQ_REGULATOR : bool.
Variable ops : adc_ops W.
Variable ext : externals W.

(** One full single-channel cycle: start the channel, then read it. *)
Definition single_cycle (channel data : Z) : M W (Z * Z) :=
  ret ← adc_start_channel CONFIG_ADC_REQ_REGULATOR ops ext channel;
  if negb (ret =? 0) then mret (ret, data) else
  adc_channel_data ops channel data.

(** [cycles s data cs ret readings s']: from the state [s] and with
    [data] in the local variable, the
    cycles of the channels [cs] are run one after the other, each in the
    state the one before left, up to the first that fails.  [readings]
    holds one entry per completed cycle, in the order of [cs]; [ret] is 0
    when every cycle succeeded and the result of the failing one
    otherwise. *)
Inductive cycles : machine W -> Z -> list Z -> Z -> list adc_channel ->
    machine W -> Prop :=
| cycles_done s data :
    cycles s data [] 0 [] s
| cycles_abort s data c cs ret data' s' :
    single_cycle c data s = ((ret, data'), s') ->
    ret <> 0 ->
    cycles s data (c :: cs) ret [] s'
| cycles_next s data c cs sample s1 ret readings s' :
    single_cycle c data s = ((0, sample), s1) ->
    cycles s1 sample cs ret readings s' ->
    cycles s data (c :: cs) ret (mk_adc_channel c sample :: readings) s'.

(** [cycle_fails channel data s ret s']: run from [s], the cycle of
    [channel] fails with [ret] and leaves [s']: either its start fails,
    or its start succeeds and its read fails. *)
Definition cycle_fails (channel data : Z) (s : machine W) (ret : Z)
    (s' : machine W) : Prop :=
  ret <> 0
  /\ (adc_start_channel CONFIG_ADC_REQ_REGULATOR ops ext channel s = (ret, s')
      \/ exists s1 data',
           adc_start_channel CONFIG_ADC_REQ_REGULATOR ops ext channel s = (0, s1)
           /\ adc_channel_data ops channel data s1 = ((ret, data'), s')).

End Cycles.

(** [readings] written over the front of the caller's array. *)
Definition written (readings channels : list adc_channel) : list adc_channel :=
  readings ++ drop (length readings) channels.

(** [readings] stored one by one through the advancing pointer, from
    offset [pos] on. *)
Fixpoint store_from (pos : nat) (readings channels : list adc_channel)
    : list adc_channel :=
  match readings with
  | [] => channels
  | r :: readings => store_from (S pos) readings (<[pos := r]> channels)
  end.

(** The [*data] a cycle starts from after the cycles that gave
    [readings]: the last sample, or the first content when there is
    none. *)
Definition data_after (d : Z) (readings : list adc_channel) : Z :=
  default d (last (map data readings)).

(** ** Test doubles *)

Module Sim.

Definition EIO : Z := 5.

(** The world is the number of polls the running conversion still
    answers with [-EBUSY]. *)
Definition world : Type := nat.

(** A converter whose conversions take two polls and deliver
    [100 + channel]; starting [bad_channel] fails with [-EIO].  It has no
    multi-channel operations. *)
Definition ops (bad_channel : option Z) : adc_ops world :=
  mk_adc_ops
    (Some (fun channel w =>
             if bool_decide (bad_channel = Some channel)
             then (- EIO, w) else (0, 2%nat)))
    None
    (Some (fun channel data w =>
             match w with
             | O => ((0, 100 + channel), O)
             | S w => ((- EBUSY, data), w)
             end))
    None
    None.

(** A converter that is busy for ever; the world counts its reads. *)
Definition busy_ops : adc_ops world :=
  mk_adc_ops
    (Some (fun channel w => (0, w)))
    None
    (Some (fun channel data w => ((- EBUSY, data), S w)))
    None
    None.

(** Regulator 7 cannot be enabled; every regulator reports 3300 uV. *)
Definition ext : externals world :=
  mk_externals
    (fun supply enable w =>
       if bool_decide (supply = 7%nat) then (- EIO, w) else (0, w))
    (fun supply w => (3300, w))
    (fun name old w => ((0, old), w))
    (fun name w => (0, w)).

Definition pdata (mask : Z) (vdd vss : option udevice) (negative : bool)
    (uV : Z) : adc_uclass_platdata :=
  mk_platdata 4095 3 3 mask vdd vss negative false uV (- ENODATA).

Definition start (pd : adc_uclass_platdata) : machine world :=
  mk_machine O pd [].

End Sim.

(** ** Probe-time setup

    [adc_pre_probe] fills the supply part of the platdata from the
    device tree.  The property reads of <dm/read.h> look the device's
    node up in the world and change nothing; they are not recorded in
    the trace. *)

Definition ENOENT : Z := 2.

Definition set_vdd_polarity_negative (b : bool) (p : adc_uclass_platdata) :=
  mk_platdata (data_mask p) (data_timeout_us p) (multidata_timeout_us p)
    (channel_mask p) (vdd_supply p) (vss_supply p) b
    (vss_polarity_negative p) (vdd_microvolts p) (vss_microvolts p).

Definition set_vss_polarity_negative (b : bool) (p : adc_uclass_platdata) :=
  mk_platdata (data_mask p) (data_timeout_us p) (multidata_timeout_us p)
    (channel_mask p) (vdd_supply p) (vss_supply p) (vdd_polarity_negative p)
    b (vdd_microvolts p) (vss_microvolts p).

(** A read of the world that changes nothing. *)
Definition peek {W A} (f : W -> A) : M W A := fun s => (f (world s), s).

(** A call that changes the world and is not recorded. *)
Definition poke {W A} (f : W -> A * W) : M W A :=
  fun s => let (a, w) := f (world s) in
           (a, mk_machine w (uc_pdata s) (trace s)).

Section Probe.

Context {W : Type}.

(** [dev_read_bool] and [dev_read_u32_default] of <dm/read.h>; the
    latter takes the default and gives an [int]. *)
Record devtree : Type := mk_devtree {
  dev_read_bool : string -> W -> bool;
  dev_read_u32_default : string -> Z -> W -> Z
}.

Variable CONFIG_ADC_REQ_REGULATOR : bool.
Variable ext : externals W.
Variable dt : devtree.

Definition adc_vdd_platdata_set : M W Z :=
  b ← peek (dev_read_bool dt "vdd-polarity-negative");
  pd ← get_pdata;
  _ ← put_pdata (set_vdd_polarity_negative b pd);
  ret ← adc_vdd_platdata_update CONFIG_ADC_REQ_REGULATOR ext;
  if negb (ret =? - ENOENT) then mret ret else
  (* No vdd-supply phandle. *)
  v ← peek (dev_read_u32_default dt "vdd-microvolts" (- ENODATA));
  pd ← get_pdata;
  _ ← put_pdata (set_vdd_microvolts v pd);
  mret 0.

Definition adc_vss_platdata_set : M W Z :=
  b ← peek (dev_read_bool dt "vss-polarity-negative");
  pd ← get_pdata;
  _ ← put_pdata (set_vss_polarity_negative b pd);
  ret ← adc_vss_platdata_update CONFIG_ADC_REQ_REGULATOR ext;
  if negb (ret =? - ENOENT) then mret ret else
  (* No vss-supply phandle. *)
  v ← peek (dev_read_u32_default dt "vss-microvolts" (- ENODATA));
  pd ← get_pdata;
  _ ← put_pdata (set_vss_microvolts v pd);
  mret 0.

(** The two results only feed [pr_err]. *)
Definition adc_pre_probe : M W Z :=
  _ ← adc_vdd_platdata_set;
  _ ← adc_vss_platdata_set;
  mret 0.

End Probe.

Arguments devtree : clear implicits.

(** ** The adc_read command *)

Definition CMD_RET_USAGE : Z := -1.

Definition rk3568_index : list Z := [229; 344; 460; 595; 732; 858; 975; 1024].
Definition rk3588_index : list Z :=
  [916; 1376; 1840; 2380; 2928; 3432; 3900; 4096].

(** Two statements of the command have no defined behaviour on some
    inputs: [strcmp (rk3588, board)] when [board] is the NULL [env_get]
    gives for an unset variable, and the [sprintf] into [adc_index] when
    the text and its NUL need more than the array holds. *)
Inductive fault : Type :=
| StrcmpNull
| SprintfOverrun.

(** How a run of the command ends: with the [int] it returns, or at a
    statement C gives no meaning to. *)
Inductive outcome : Type :=
| Returns (ret : Z)
| Faults (f : fault).

(** [adc_flag] after the two [strcmp]s on the "board" variable, for a
    variable that is set. *)
Definition board_flag (board : string) : Z :=
  if String.eqb "evb_rk3588" board then 1
  else if String.eqb "evb_rk3568" board then 2
  else 0.

(** The [for (i = 0; i < 8; i++)] loop: [rounds] counts the values of [i]
    still to come, [index] is the variable of that name.  [val] is a
    [u32], so the table entry is converted for the comparison. *)
Fixpoint index_loop (rounds : nat) (i : nat) (adc_flag val index : Z) : Z :=
  match rounds with
  | O => index
  | S rounds =>
      if (adc_flag =? 1)
         && (val <? to_unsigned (default 0 (rk3588_index !! i)))
      then Z.of_nat i
      else if (adc_flag =? 2)
              && (val <? to_unsigned (default 0 (rk3568_index !! i)))
      then Z.of_nat i
      else index_loop rounds (S i) adc_flag val index
  end.

(** The value of [index] after the loop; it starts at 10. *)
Definition board_index (adc_flag val : Z) : Z :=
  index_loop 8 0 adc_flag val 10.

(** What ["%d"] prints for an [int], and [simple_itoa] for a number
    that is not negative: the decimal digits, after a minus sign for a
    negative number. *)
Definition decimal (z : Z) : string :=
  DecimalString.NilZero.string_of_int (Z.to_int z).

Definition simple_itoa (i : Z) : string := decimal i.

(** The text [sprintf (adc_index, "adc_index_%d", channel)] produces,
    without its terminating NUL, and the size of [char adc_index[11]]. *)
Definition sprintf_adc_index (channel : Z) : string :=
  "adc_index_" +:+ decimal channel.

Definition ADC_INDEX_SIZE : nat := 11.

Section Command.

Context {W : Type}.

(** [atoi] of the C library and the environment of U-Boot, which lives
    in the world. *)
Record cmd_env : Type := mk_cmd_env {
  atoi : string -> Z;
  env_get : string -> W -> option string;
  env_set : string -> string -> W -> Z * W
}.

Variable CONFIG_ADC_REQ_REGULATOR : bool.
Variable ops : adc_ops W.
Variable ext : externals W.
Variable cmd : cmd_env.

(** [val] stands for the indeterminate first content of the local
    variable of that name.  The two [printf]s of the board and the last
    one are not modelled. *)
Definition do_rockchip_adc_read (argc : Z) (argv : list string) (val : Z)
    : M W outcome :=
  if negb (argc =? 2) then mret (Returns CMD_RET_USAGE) else
  let channel := atoi cmd (default "" (argv !! 1%nat)) in
  '(ret, val) ← adc_channel_single_shot CONFIG_ADC_REQ_REGULATOR ops ext
                  "saradc" channel val;
  if negb (ret =? 0) then mret (Returns 0) else
  board ← peek (env_get cmd "board");
  match board with
  | None => mret (Faults StrcmpNull)
  | Some board =>
      let adc_flag := board_flag board in
      let index := board_index adc_flag val in
      let str := simple_itoa index in
      let key := sprintf_adc_index channel in
      if (ADC_INDEX_SIZE <? String.length key + 1)%nat
      then mret (Faults SprintfOverrun) else
      _ ← poke (env_set cmd key str);
      mret (Returns 0)
  end.

End Command.

Arguments cmd_env : clear implicits.

(** ** How often the driver is called *)

Definition is_start_channel (e : event) : bool :=
  match e with EvStartChannel _ => true | _ => false end.

Definition is_channels_data (e : event) : bool :=
  match e with EvChannelsData _ => true | _ => false end.

(** Calls of the driver itself, as opposed to the regulators, the
    registry and the delay. *)
Definition is_driver_call (e : event) : bool :=
  match e with
  | EvStop | EvStartChannel _ | EvStartChannels _
  | EvChannelData _ | EvChannelsData _ => true
  | _ => false
  end.

Definition driver_calls (t : list event) : list event :=
  filter (fun e => is_driver_call e = true) t.

Definition is_regulator_enable (e : event) : bool :=
  match e with EvRegulatorSetEnable _ true => true | _ => false end.

(** A stretch of trace in which supplies are switched on and nothing
    else happens. *)
Definition only_supplies (t : list event) : Prop :=
  Forall (fun e => is_regulator_enable e = true) t.

(** The channels the driver was asked to start, in the order of the
    calls. *)
Definition started_channels (t : list event) : list Z :=
  omap (fun e => match e with EvStartChannel c => Some c | _ => None end) t.

(** The events of [n] multi-channel reads that found the converter
    busy. *)
Definition busy_multi_rounds (mask : Z) (n : nat) : list event :=
  concat (replicate n [EvChannelsData mask; EvSdelay 5]).

(** The outcome of multi-channel read number [n + 1] when the read is
    invoked again and again. *)
Fixpoint nth_multi_read {W}
    (f : Z -> list adc_channel -> W -> (Z * list adc_channel) * W)
    (mask : Z) (n : nat) (channels : list adc_channel) (w : W)
    : (Z * list adc_channel) * W :=
  match n with
  | O => f mask channels w
  | S n => let '((_, channels'), w') := f mask channels w in
           nth_multi_read f mask n channels' w'
  end.

(** Two platdata that agree on everything but the VDD supply and its
    cached voltage; likewise for VSS. *)
Definition same_outside_vdd (p q : adc_uclass_platdata) : Prop :=
  set_vdd_supply (vdd_supply q) (set_vdd_microvolts (vdd_microvolts q) p) = q.

Definition same_outside_vss (p q : adc_uclass_platdata) : Prop :=
  set_vss_supply (vss_supply q) (set_vss_microvolts (vss_microvolts q) p) = q.

(** ** More test doubles *)

Module Bench.

(** A converter with native multi-channel operations: a conversion takes
    two polls, then every entry of the array is filled. *)
Definition multi_ops : adc_ops Sim.world :=
  mk_adc_ops
    (Some (fun channel w => (0, 2%nat)))
    (Some (fun mask w => (0, 2%nat)))
    (Some (fun channel d w =>
             match w with
             | O => ((0, 100 + channel), O)
             | S w => ((- EBUSY, d), w)
             end))
    (Some (fun mask channels w =>
             match w with
             | O => ((0, map (fun c => mk_adc_channel (id c) 7) channels), O)
             | S w => ((- EBUSY, channels), w)
             end))
    (Some (fun w => (0, O))).

(** A converter that can start several channels and cannot read them. *)
Definition start_only_ops : adc_ops Sim.world :=
  mk_adc_ops None (Some (fun mask w => (0, 2%nat))) None None None.

(** A multi-channel converter that is busy for ever. *)
Definition busy_multi_ops : adc_ops Sim.world :=
  mk_adc_ops None (Some (fun mask w => (0, w))) None
    (Some (fun mask channels w => ((- EBUSY, channels), S w))) None.

(** No supply phandle: the look-up answers [-ENOENT] and clears the
    pointer. *)
Definition no_phandle_ext : externals Sim.world :=
  mk_externals
    (fun supply enable w => (0, w))
    (fun supply w => (3300, w))
    (fun name old w => ((- ENOENT, None), w))
    (fun name w => (0, w)).

(** The supply is found and its regulator cannot be read. *)
Definition unreadable_ext : externals Sim.world :=
  mk_externals
    (fun supply enable w => (0, w))
    (fun supply w => (- Sim.EIO, w))
    (fun name old w => ((0, old), w))
    (fun name w => (0, w)).

(** The registry knows no device. *)
Definition no_device_ext : externals Sim.world :=
  mk_externals
    (fun supply enable w => (0, w))
    (fun supply w => (3300, w))
    (fun name old w => ((0, old), w))
    (fun name w => (- Sim.EIO, w)).

(** A node with vdd-microvolts = 1800, negative VDD polarity and no VSS
    property. *)
Definition dt : devtree Sim.world :=
  mk_devtree
    (fun name w => String.eqb name "vdd-polarity-negative")
    (fun name def w => if String.eqb name "vdd-microvolts" then 1800 else def).

(** The environment of an rk3588 board; setting a variable counts as
    one more step of the world. *)
Definition cmd : cmd_env Sim.world :=
  mk_cmd_env
    (fun arg => if String.eqb arg "1" then 1 else 0)
    (fun name w => if String.eqb name "board" then Some "evb_rk3588" else None)
    (fun name value w => (0, S w)).

(** The same with no variable set. *)
Definition no_board_cmd : cmd_env Sim.world :=
  mk_cmd_env
    (fun arg => if String.eqb arg "1" then 1 else 0)
    (fun name w => None)
    (fun name value w => (0, S w)).

End Bench.

(** * Theory *)

(** Unfolds the monad down to state passing. *)
Ltac unfold_monad :=
  unfold mbind, M_bind, mret, M_ret, get_pdata, put_pdata, call.

(** ** Machine integers and bits *)

Lemma to_unsigned_id z : is_unsigned z -> to_unsigned z = z.
Proof.
  unfold is_unsigned, UINT_MAX, to_unsigned. intros H.
  apply Z.mod_small. lia.
Qed.

Lemma to_int_id z : is_int z -> to_int z = z.
Proof.
  unfold is_int, INT_MIN, INT_MAX, to_int. intros H.
  rewrite Z.mod_small; lia.
Qed.

Lemma to_unsigned_to_int z : to_unsigned (to_int z) = to_unsigned z.
Proof.
  unfold to_unsigned, to_int.
  rewrite Zminus_mod, Zmod_mod, <- Zminus_mod.
  f_equal. lia.
Qed.

Lemma mask_of_number c :
  0 <= c <= 31 -> to_unsigned (shl_int 1 c) = 2 ^ c.
Proof.
  intros Hc. unfold shl_int. rewrite to_unsigned_to_int.
  rewrite (Z.mod_small c 32) by lia.
  rewrite Z.shiftl_1_l. apply to_unsigned_id.
  unfold is_unsigned, UINT_MAX.
  assert (2 ^ c <= 2 ^ 31) by (apply Z.pow_le_mono_r; lia).
  assert (0 < 2 ^ c) by (apply Z.pow_pos_nonneg; lia).
  lia.
Qed.

Lemma land_pow2 (m c : Z) :
  0 <= c -> Z.land m (2 ^ c) = if Z.testbit m c then 2 ^ c else 0.
Proof.
  intros Hc. apply Z.bits_inj'. intros n Hn.
  rewrite Z.land_spec, Z.pow2_bits_eqb by lia.
  destruct (Z.eqb_spec c n) as [->|Hne].
  - destruct (Z.testbit m n) eqn:E; simpl.
    + rewrite Z.pow2_bits_true; [reflexivity | lia].
    + rewrite Z.bits_0. reflexivity.
  - rewrite andb_false_r.
    destruct (Z.testbit m c).
    + rewrite Z.pow2_bits_false; [reflexivity | lia].
    + rewrite Z.bits_0. reflexivity.
Qed.

Lemma testbit_ge_pow2 (m c : Z) :
  0 <= m -> 0 <= c -> Z.testbit m c = true -> 2 ^ c <= m.
Proof.
  intros Hm Hc Hb.
  destruct (Z.lt_ge_cases m (2 ^ c)) as [Hlt|]; [|assumption].
  rewrite Z.testbit_eqb, Z.div_small in Hb by lia. discriminate.
Qed.

Lemma land_subset_le (r m : Z) :
  0 <= r -> 0 <= m -> Z.land r m = r -> r <= m.
Proof.
  intros Hr Hm H.
  assert (Hx : m = Z.lor r (Z.land m (Z.lnot r))).
  { apply Z.bits_inj'. intros n Hn.
    rewrite Z.lor_spec, Z.land_spec, Z.lnot_spec by lia.
    assert (Hb : Z.testbit (Z.land r m) n = Z.testbit r n) by (rewrite H; reflexivity).
    rewrite Z.land_spec in Hb.
    destruct (Z.testbit r n), (Z.testbit m n); simpl in *; congruence. }
  assert (Hd : Z.land r (Z.land m (Z.lnot r)) = 0).
  { apply Z.bits_inj'. intros n Hn.
    rewrite !Z.land_spec, Z.lnot_spec, Z.bits_0 by lia.
    destruct (Z.testbit r n), (Z.testbit m n); reflexivity. }
  assert (Hnn : 0 <= Z.land m (Z.lnot r)) by (apply Z.land_nonneg; lia).
  pose proof (Z.add_nocarry_lxor _ _ Hd) as Hadd.
  rewrite (Z.lxor_lor _ _ Hd), <- Hx in Hadd.
  lia.
Qed.

Lemma channel_bit_test (mask c : Z) :
  0 <= c -> (Z.land (Z.shiftr mask c) 1 =? 0) = negb (Z.testbit mask c).
Proof.
  intros Hc.
  change 1 with (Z.ones 1). rewrite Z.land_ones by lia.
  change (2 ^ 1) with 2. rewrite <- Z.bit0_mod, Z.shiftr_spec by lia.
  rewrite Z.add_0_l. destruct (Z.testbit mask c); reflexivity.
Qed.

(** ** check_channel *)

(** What the test of [check_channel] amounts to on a mask request. *)
Lemma check_channel_mask_eq (pd : adc_uclass_platdata) (R : Z) :
  is_unsigned R ->
  check_channel pd (to_int R) CHECK_MASK =
    if (R <=? channel_mask pd) && negb (Z.land (channel_mask pd) R =? 0)
    then 0 else - EINVAL.
Proof.
  intros HR. unfold check_channel, CHECK_MASK, CHECK_NUMBER. simpl negb. cbv iota.
  rewrite to_unsigned_to_int, to_unsigned_id by assumption.
  rewrite Z.geb_leb. reflexivity.
Qed.

Lemma check_channel_result (pd : adc_uclass_platdata) (value : Z) (b : bool) :
  check_channel pd value b = 0 \/ check_channel pd value b = - EINVAL.
Proof. unfold check_channel. destruct (_ && _); auto. Qed.

(** When [check_channel] lets a mask request through. *)
Lemma check_channel_mask_iff (pd : adc_uclass_platdata) (R : Z) :
  is_unsigned R ->
  check_channel pd (to_int R) CHECK_MASK = 0
  <-> R <= channel_mask pd /\ Z.land R (channel_mask pd) <> 0.
Proof.
  intros HR. rewrite check_channel_mask_eq by assumption.
  rewrite (Z.land_comm (channel_mask pd) R).
  destruct (Z.leb_spec R (channel_mask pd));
    destruct (Z.eqb_spec (Z.land R (channel_mask pd)) 0); simpl;
    unfold EINVAL; split; try discriminate; try tauto; try lia.
Qed.

(** C1, as the specification states it, fails on the empty request: 0 is
    a bit-subset of the mask 0b1010, and [check_channel] answers
    [-EINVAL]. *)
Lemma check_channel_mask_iff_subset_fails :
  mask_is_subset 0 10
  /\ check_channel (Sim.pdata 10 None None false 0) (to_int 0) CHECK_MASK = - EINVAL
  /\ ~ (check_channel (Sim.pdata 10 None None false 0) (to_int 0) CHECK_MASK = 0
        <-> mask_is_subset 0 10).
Proof.
  split; [reflexivity|]. split; [reflexivity|].
  intros [_ H]. specialize (H eq_refl). vm_compute in H. discriminate.
Qed.

(** The test also lets through a request that overlaps the mask without
    being inside it, as long as it is not the greater number: 0b0110 on
    a device whose mask is 0b1010. *)
Example check_channel_accepts_overlap :
  check_channel (Sim.pdata 10 None None false 0) (to_int 6) CHECK_MASK = 0
  /\ ~ mask_is_subset 6 10.
Proof. split; [reflexivity|]. unfold mask_is_subset. vm_compute. discriminate. Qed.

(** The example of the comment in the source: 0b1110 is refused on a
    device whose mask is 0b1010. *)
Example check_channel_refuses_0b1110 :
  check_channel (Sim.pdata 10 None None false 0) (to_int 14) CHECK_MASK = - EINVAL.
Proof. reflexivity. Qed.

(** C1 (amended): on a multi-channel request [R], [check_channel]
    succeeds whenever [R] is not empty and every bit of [R] is a bit of
    the device's mask; it refuses the empty request, every request that
    shares no bit with the mask, and every request that is numerically
    greater than the mask. *)
Theorem check_channel_mask_rule (pd : adc_uclass_platdata) (R : Z) :
  is_unsigned (channel_mask pd) -> is_unsigned R ->
  (R <> 0 -> mask_is_subset R (channel_mask pd) ->
   check_channel pd (to_int R) CHECK_MASK = 0)
  /\ (R = 0 -> check_channel pd (to_int R) CHECK_MASK = - EINVAL)
  /\ (Z.land R (channel_mask pd) = 0 ->
      check_channel pd (to_int R) CHECK_MASK = - EINVAL)
  /\ (channel_mask pd < R ->
      check_channel pd (to_int R) CHECK_MASK = - EINVAL).
Proof.
  intros HM HR. rewrite check_channel_mask_eq by assumption.
  unfold is_unsigned in *. repeat split.
  - intros Hne Hsub. unfold mask_is_subset in Hsub.
    assert (R <= channel_mask pd) by (apply land_subset_le; lia).
    rewrite Z.land_comm, Hsub.
    destruct (Z.leb_spec R (channel_mask pd)); [|lia].
    destruct (Z.eqb_spec R 0); [contradiction | reflexivity].
  - intros ->. rewrite Z.land_0_r, andb_false_r. reflexivity.
  - intros H0. rewrite Z.land_comm, H0, andb_false_r. reflexivity.
  - intros Hlt. destruct (Z.leb_spec R (channel_mask pd)); [lia | reflexivity].
Qed.

Lemma check_channel_mask_rule_witness :
  check_channel (Sim.pdata 10 None None false 0) (to_int 2) CHECK_MASK = 0
  /\ check_channel (Sim.pdata 10 None None false 0) (to_int 14) CHECK_MASK = - EINVAL.
Proof.
  assert (HM : is_unsigned (channel_mask (Sim.pdata 10 None None false 0)))
    by (vm_compute; split; discriminate).
  split.
  - refine (proj1 (check_channel_mask_rule (Sim.pdata 10 None None false 0) 2 HM _) _ _).
    + vm_compute; split; discriminate.
    + discriminate.
    + reflexivity.
  - refine (proj2 (proj2 (proj2
      (check_channel_mask_rule (Sim.pdata 10 None None false 0) 14 HM _))) _).
    + vm_compute; split; discriminate.
    + reflexivity.
Defined.

(** What the number test amounts to for any [int]: the bit tested is the
    one the count modulo 32 names. *)
Lemma check_channel_number_wraps (pd : adc_uclass_platdata) (c : Z) :
  check_channel pd c CHECK_NUMBER = check_channel pd (c mod 32) CHECK_NUMBER.
Proof.
  unfold check_channel, CHECK_NUMBER, shl_int.
  rewrite Z.mod_mod by lia. reflexivity.
Qed.

(** C2: [check_channel] has no range test before its shift, so outside
    the channel indices of a 32-bit mask a request can be validated
    although the mask has no such bit: on a device whose mask is 0b1011
    the request for channel 32 is validated, as channel 0 would be; so
    is a request for channel -1 on a device whose bit 31 is set. *)
Theorem check_channel_accepts_out_of_range :
  check_channel (Sim.pdata 11 None None false 0) 32 CHECK_NUMBER = 0
  /\ Z.testbit (channel_mask (Sim.pdata 11 None None false 0)) 32 = false
  /\ check_channel (Sim.pdata (2 ^ 31) None None false 0) (-1) CHECK_NUMBER = 0
  /\ Z.testbit (channel_mask (Sim.pdata (2 ^ 31) None None false 0)) (-1) = false.
Proof. repeat split. Qed.

(** X29: on a single-channel request [c], a channel index of a 32-bit
    mask, [check_channel] succeeds exactly when bit [c] of the device's
    mask is set. *)
Theorem check_channel_number_iff_bit (pd : adc_uclass_platdata) (c : Z) :
  is_unsigned (channel_mask pd) -> 0 <= c <= 31 ->
  check_channel pd c CHECK_NUMBER = 0 <-> Z.testbit (channel_mask pd) c = true.
Proof.
  intros HM Hc. unfold check_channel, CHECK_NUMBER.
  rewrite mask_of_number by assumption.
  rewrite Z.geb_leb, land_pow2 by lia.
  assert (0 < 2 ^ c) by (apply Z.pow_pos_nonneg; lia).
  destruct (Z.testbit (channel_mask pd) c) eqn:Hb.
  - assert (2 ^ c <= channel_mask pd).
    { apply testbit_ge_pow2; [unfold is_unsigned in HM; lia | lia | assumption]. }
    destruct (Z.leb_spec (2 ^ c) (channel_mask pd)); [|lia].
    destruct (Z.eqb_spec (2 ^ c) 0); [lia|]. simpl. tauto.
  - rewrite andb_false_r. unfold EINVAL. split; discriminate.
Qed.

Lemma check_channel_number_iff_bit_witness :
  check_channel (Sim.pdata 10 None None false 0) 3 CHECK_NUMBER = 0
  /\ check_channel (Sim.pdata 10 None None false 0) 2 CHECK_NUMBER <> 0.
Proof.
  assert (HM : is_unsigned (channel_mask (Sim.pdata 10 None None false 0)))
    by (vm_compute; split; discriminate).
  split.
  - apply (check_channel_number_iff_bit (Sim.pdata 10 None None false 0) 3 HM).
    + lia.
    + reflexivity.
  - intros H.
    apply (check_channel_number_iff_bit (Sim.pdata 10 None None false 0) 2 HM) in H.
    + discriminate H.
    + lia.
Defined.

(** ** The polling loop *)

Section Polling.

Context {W : Type}.
Variable ops : adc_ops W.

Implicit Types (s : machine W) (f : Z -> Z -> W -> (Z * Z) * W).

(** One round of the loop. *)
Lemma channel_data_loop_step f channel data n s :
  channel_data_loop f channel data n s =
    let '((ret, data'), w') := f channel data (world s) in
    let s1 := mk_machine w' (uc_pdata s) (trace s ++ [EvChannelData channel]) in
    if (ret =? 0) || negb (ret =? - EBUSY) then ((ret, data'), s1) else
    let s2 := mk_machine w' (uc_pdata s) (trace s1 ++ [EvSdelay 5]) in
    match n with
    | O => ((ret, data'), s2)
    | S n' => channel_data_loop f channel data' n' s2
    end.
Proof.
  destruct n; simpl; unfold mbind, M_bind, call; simpl;
    destruct (f channel data (world s)) as [[r d] w]; simpl;
    destruct ((r =? 0) || negb (r =? - EBUSY)); reflexivity.
Qed.

Lemma busy_rounds_S channel n :
  busy_rounds channel (S n)
  = [EvChannelData channel; EvSdelay 5] ++ busy_rounds channel n.
Proof. reflexivity. Qed.

Lemma channel_data_calls_app t1 t2 :
  channel_data_calls (t1 ++ t2)
  = (channel_data_calls t1 + channel_data_calls t2)%nat.
Proof. unfold channel_data_calls. rewrite filter_app, length_app. reflexivity. Qed.

Lemma channel_data_calls_busy_rounds channel n :
  channel_data_calls (busy_rounds channel n) = n.
Proof.
  induction n as [|n IH]; [reflexivity|].
  rewrite busy_rounds_S, channel_data_calls_app, IH. reflexivity.
Qed.

Lemma busy_test_false ret :
  ret = - EBUSY -> (ret =? 0) || negb (ret =? - EBUSY) = false.
Proof. intros ->. reflexivity. Qed.

Lemma busy_test_true ret :
  ret <> - EBUSY -> (ret =? 0) || negb (ret =? - EBUSY) = true.
Proof.
  intros H. destruct (Z.eqb_spec ret (- EBUSY)); [contradiction|].
  apply orb_true_r.
Qed.

(** While every read is busy, the loop makes [timeout_us + 1] reads. *)
Lemma channel_data_loop_busy f channel n :
  forall data s,
    (forall i, (i <= n)%nat ->
       (nth_read f channel i data (world s)).1.1 = - EBUSY) ->
    channel_data_loop f channel data n s =
      ((nth_read f channel n data (world s)).1,
       mk_machine (nth_read f channel n data (world s)).2 (uc_pdata s)
         (trace s ++ busy_rounds channel (S n))).
Proof.
  induction n as [|n IH]; intros data s Hbusy; rewrite channel_data_loop_step.
  - specialize (Hbusy O (le_n _)). simpl in *.
    destruct (f channel data (world s)) as [[r d] w]. simpl in *.
    rewrite busy_test_false by assumption. simpl.
    rewrite <- app_assoc. subst r. reflexivity.
  - pose proof (Hbusy O (Nat.le_0_l _)) as H0. simpl in H0.
    assert (Hrest : forall i, (i <= n)%nat ->
              (nth_read f channel (S i) data (world s)).1.1 = - EBUSY)
      by (intros i Hi; apply Hbusy; lia).
    simpl nth_read in *.
    destruct (f channel data (world s)) as [[r d] w]. simpl in H0.
    rewrite busy_test_false by assumption. cbv zeta.
    rewrite IH by exact Hrest.
    rewrite (busy_rounds_S channel (S n)). simpl. rewrite <- !app_assoc. reflexivity.
Qed.

(** The first read that is not busy ends the loop, if the budget
    reaches it. *)
Lemma channel_data_loop_answer f channel j :
  forall n data s,
    (j <= n)%nat ->
    (forall i, (i < j)%nat ->
       (nth_read f channel i data (world s)).1.1 = - EBUSY) ->
    (nth_read f channel j data (world s)).1.1 <> - EBUSY ->
    channel_data_loop f channel data n s =
      ((nth_read f channel j data (world s)).1,
       mk_machine (nth_read f channel j data (world s)).2 (uc_pdata s)
         (trace s ++ busy_rounds channel j ++ [EvChannelData channel])).
Proof.
  induction j as [|j IH]; intros n data s Hle Hbusy Hans;
    rewrite channel_data_loop_step.
  - simpl in *. destruct (f channel data (world s)) as [[r d] w]. simpl in *.
    rewrite busy_test_true by assumption. reflexivity.
  - destruct n as [|n]; [lia|].
    pose proof (Hbusy O (Nat.lt_0_succ _)) as H0. simpl in H0.
    assert (Hrest : forall i, (i < j)%nat ->
              (nth_read f channel (S i) data (world s)).1.1 = - EBUSY)
      by (intros i Hi; apply Hbusy; lia).
    simpl nth_read in *.
    destruct (f channel data (world s)) as [[r d] w]. simpl in H0.
    rewrite busy_test_false by assumption. cbv zeta.
    rewrite (IH n d) by (simpl; first [lia | assumption]).
    rewrite (busy_rounds_S channel j). simpl. rewrite <- !app_assoc. reflexivity.
Qed.

Lemma adc_channel_data_valid f channel data s :
  channel_data ops = Some f ->
  check_channel (uc_pdata s) channel CHECK_NUMBER = 0 ->
  adc_channel_data ops channel data s =
    channel_data_loop f channel data
      (Z.to_nat (data_timeout_us (uc_pdata s))) s.
Proof.
  intros Hf Hok. unfold adc_channel_data, mbind, M_bind, get_pdata.
  rewrite Hf, Hok. reflexivity.
Qed.

(** C3: when the driver's read answers [-EBUSY] at every invocation,
    [adc_channel_data] on a valid channel with the budget
    [data_timeout_us = T] invokes the read exactly [T + 1] times, each
    followed by the settle delay, and returns [-EBUSY]. *)
Theorem adc_channel_data_always_busy f (channel data T : Z) s :
  channel_data ops = Some f ->
  check_channel (uc_pdata s) channel CHECK_NUMBER = 0 ->
  data_timeout_us (uc_pdata s) = T -> 0 <= T ->
  (forall d w, (f channel d w).1.1 = - EBUSY) ->
  let '((ret, _), s') := adc_channel_data ops channel data s in
  ret = - EBUSY
  /\ trace s' = trace s ++ busy_rounds channel (Z.to_nat (T + 1))
  /\ Z.of_nat (channel_data_calls (trace s'))
     = Z.of_nat (channel_data_calls (trace s)) + (T + 1).
Proof.
  intros Hf Hok HT Hpos Hbusy.
  rewrite (adc_channel_data_valid f) by assumption.
  assert (Hall : forall i d w, (nth_read f channel i d w).1.1 = - EBUSY).
  { induction i as [|i IH]; intros d w; simpl; [apply Hbusy|].
    destruct (f channel d w) as [[r d'] w']. apply IH. }
  rewrite channel_data_loop_busy by (intros; apply Hall).
  specialize (Hall (Z.to_nat (data_timeout_us (uc_pdata s))) data (world s)).
  destruct (nth_read f channel _ data (world s)) as [[r d'] w']. simpl in *.
  rewrite HT in *.
  replace (Z.to_nat (T + 1)) with (S (Z.to_nat T)) by lia.
  repeat split; [assumption|].
  rewrite channel_data_calls_app, channel_data_calls_busy_rounds. lia.
Qed.

(** C4: when read number [k] is the first whose answer is not [-EBUSY]
    (success or any other error) and [k <= T + 1], [adc_channel_data] on
    a valid channel makes exactly [k] reads - [k - 1] busy rounds, then
    the read that answers - and returns the result and the sample of
    read [k], leaving the world as that read left it. *)
Theorem adc_channel_data_first_answer f (channel data : Z) (k : nat) s :
  channel_data ops = Some f ->
  check_channel (uc_pdata s) channel CHECK_NUMBER = 0 ->
  (1 <= k)%nat -> Z.of_nat k <= data_timeout_us (uc_pdata s) + 1 ->
  (forall i, (i < k - 1)%nat ->
     (nth_read f channel i data (world s)).1.1 = - EBUSY) ->
  (nth_read f channel (k - 1) data (world s)).1.1 <> - EBUSY ->
  let '(result, s') := adc_channel_data ops channel data s in
  result = (nth_read f channel (k - 1) data (world s)).1
  /\ world s' = (nth_read f channel (k - 1) data (world s)).2
  /\ trace s' = trace s ++ busy_rounds channel (k - 1) ++ [EvChannelData channel]
  /\ channel_data_calls (trace s') = (channel_data_calls (trace s) + k)%nat.
Proof.
  intros Hf Hok Hk HkT Hbusy Hans.
  rewrite (adc_channel_data_valid f) by assumption.
  rewrite (channel_data_loop_answer f channel (k - 1)) by (first [lia | assumption]).
  simpl. repeat split.
  rewrite !channel_data_calls_app, channel_data_calls_busy_rounds.
  change (channel_data_calls [EvChannelData channel]) with 1%nat. lia.
Qed.

End Polling.

Lemma adc_channel_data_always_busy_witness :
  let '((ret, _), s') :=
    adc_channel_data Sim.busy_ops 1 0 (Sim.start (Sim.pdata 10 None None false 0)) in
  ret = - EBUSY
  /\ trace s' = [] ++ busy_rounds 1 (Z.to_nat (3 + 1))
  /\ Z.of_nat (channel_data_calls (trace s')) = Z.of_nat (channel_data_calls []) + (3 + 1).
Proof.
  apply (adc_channel_data_always_busy Sim.busy_ops
           (fun channel data w => ((- EBUSY, data), S w)) 1 0 3
           (Sim.start (Sim.pdata 10 None None false 0)));
    [reflexivity | reflexivity | reflexivity | lia | intros; reflexivity].
Defined.

(** The converter of [Sim.ops] answers at the third read of a
    conversion: three reads are made and the sample 101 is returned. *)
Lemma adc_channel_data_first_answer_witness :
  let s := mk_machine 2%nat (Sim.pdata 10 None None false 0) [] in
  let '(result, s') := adc_channel_data (Sim.ops None) 1 0 s in
  result = (0, 101)
  /\ world s' = O
  /\ trace s' = [] ++ busy_rounds 1 (3 - 1) ++ [EvChannelData 1]
  /\ channel_data_calls (trace s') = (channel_data_calls [] + 3)%nat.
Proof.
  apply (adc_channel_data_first_answer (Sim.ops None)
           (fun channel data w =>
              match w with
              | O => ((0, 100 + channel), O)
              | S w => ((- EBUSY, data), w)
              end) 1 0 3
           (mk_machine 2%nat (Sim.pdata 10 None None false 0) []));
    [reflexivity | reflexivity | lia | simpl; lia | | simpl; discriminate].
  intros [|[|i]] Hi; [reflexivity | reflexivity | simpl in Hi; lia].
Defined.

(** ** Supplies and starting a conversion *)

Section Starting.

Context {W : Type}.
Variable ops : adc_ops W.
Variable ext : externals W.

Implicit Types (s : machine W).

Lemma adc_supply_enable_vdd_fails s vdd err w' :
  vdd_supply (uc_pdata s) = Some vdd ->
  regulator_set_enable ext vdd true (world s) = (err, w') ->
  err <> 0 ->
  adc_supply_enable true ext s =
    (err, mk_machine w' (uc_pdata s) (trace s ++ [EvRegulatorSetEnable vdd true])).
Proof.
  intros Hvdd Hen Herr.
  unfold adc_supply_enable, mbind, M_bind, get_pdata, call.
  rewrite Hvdd, Hen. simpl.
  destruct (Z.eqb_spec err 0); [contradiction|]. reflexivity.
Qed.

Lemma adc_start_channel_eq (regulators : bool) (channel : Z) s :
  adc_start_channel regulators ops ext channel s =
    match start_channel ops with
    | None => (- ENOSYS, s)
    | Some f =>
        let ret := check_channel (uc_pdata s) channel CHECK_NUMBER in
        if negb (ret =? 0) then (ret, s) else
        let (ret, s1) := adc_supply_enable regulators ext s in
        if negb (ret =? 0) then (ret, s1) else
        call (EvStartChannel channel) (f channel) s1
    end.
Proof.
  unfold adc_start_channel. destruct (start_channel ops); [|reflexivity].
  unfold mbind at 1, M_bind at 1, get_pdata. cbv beta iota zeta.
  destruct (negb _); [reflexivity|].
  unfold mbind, M_bind. destruct (adc_supply_enable regulators ext s) as [r s1].
  destruct (negb _); reflexivity.
Qed.

(** C5: with both supplies configured (and regulators compiled in), when
    enabling the VDD supply fails, a call of [adc_start_channel] fails,
    and the only call it can have made is the VDD enable: no second
    [regulator_set_enable] (the VSS one) and no [start_channel] of the
    driver is in the trace.  When the request gets as far as the
    supplies (the driver can start a channel and the channel is valid),
    the VDD enable is made and its error is the result. *)
Theorem adc_start_channel_vdd_enable_fails (channel : Z) s vdd vss err w' :
  vdd_supply (uc_pdata s) = Some vdd ->
  vss_supply (uc_pdata s) = Some vss ->
  regulator_set_enable ext vdd true (world s) = (err, w') ->
  err <> 0 ->
  let '(ret, s') := adc_start_channel true ops ext channel s in
  ret <> 0
  /\ (trace s' = trace s
      \/ trace s' = trace s ++ [EvRegulatorSetEnable vdd true])
  /\ (is_Some (start_channel ops) ->
      check_channel (uc_pdata s) channel CHECK_NUMBER = 0 ->
      ret = err
      /\ s' = mk_machine w' (uc_pdata s)
                (trace s ++ [EvRegulatorSetEnable vdd true])).
Proof.
  intros Hvdd Hvss Hen Herr.
  rewrite adc_start_channel_eq.
  destruct (start_channel ops) as [f|] eqn:Hf.
  - destruct (check_channel_result (uc_pdata s) channel CHECK_NUMBER) as [Hok|Hbad];
      rewrite ?Hok, ?Hbad.
    + change (negb (0 =? 0)) with false. cbv iota.
      rewrite (adc_supply_enable_vdd_fails s vdd err w') by assumption.
      destruct (Z.eqb_spec err 0); [contradiction|]. simpl.
      split; [assumption|]. split; [right; reflexivity|].
      intros _ _. split; reflexivity.
    + change (negb (- EINVAL =? 0)) with true. cbv iota.
      unfold EINVAL. split; [discriminate|]. split; [left; reflexivity|].
      intros _ H. discriminate H.
  - unfold ENOSYS. split; [discriminate|]. split; [left; reflexivity|].
    intros [g Hg]. discriminate Hg.
Qed.

Lemma check_channel_empty_mask (pd : adc_uclass_platdata) :
  check_channel pd (to_int 0) CHECK_MASK = - EINVAL.
Proof.
  unfold check_channel, CHECK_MASK, CHECK_NUMBER. simpl negb. cbv iota.
  change (to_unsigned (to_int 0)) with 0.
  rewrite Z.land_0_r, andb_false_r. reflexivity.
Qed.

(** C10: whatever the device's [channel_mask], [check_channel] refuses
    the empty mask with [-EINVAL]; so [adc_start_channels] and
    [adc_channels_data] fail on it without calling the driver or the
    regulators: with [-EINVAL] from the validator when the driver has the
    operation (and, as for every request, with [-ENOSYS] from the test
    before it when the driver lacks it). *)
Theorem empty_mask_rejected (regulators : bool) (pd : adc_uclass_platdata)
    s (channels : list adc_channel) :
  check_channel pd (to_int 0) CHECK_MASK = - EINVAL
  /\ adc_start_channels regulators ops ext 0 s
     = (match start_channels ops with
        | Some _ => - EINVAL
        | None => - ENOSYS
        end, s)
  /\ adc_channels_data ops 0 channels s
     = ((match channels_data ops with
         | Some _ => - EINVAL
         | None => - ENOSYS
         end, channels), s).
Proof.
  split; [apply check_channel_empty_mask|]. split.
  - unfold adc_start_channels. destruct (start_channels ops); [|reflexivity].
    unfold mbind, M_bind, get_pdata. rewrite check_channel_empty_mask. reflexivity.
  - unfold adc_channels_data, mbind, M_bind, get_pdata.
    destruct (channels_data ops); [|reflexivity].
    rewrite check_channel_empty_mask. reflexivity.
Qed.

End Starting.

(** Regulator 7 fails to enable: the start of the valid channel 1
    returns its error after that single call. *)
Lemma adc_start_channel_vdd_enable_fails_witness :
  let s := Sim.start (Sim.pdata 10 (Some 7%nat) (Some 8%nat) false 0) in
  let '(ret, s') := adc_start_channel true (Sim.ops None) Sim.ext 1 s in
  ret <> 0
  /\ (trace s' = trace s
      \/ trace s' = trace s ++ [EvRegulatorSetEnable 7%nat true])
  /\ (is_Some (start_channel (Sim.ops None)) ->
      check_channel (uc_pdata s) 1 CHECK_NUMBER = 0 ->
      ret = - Sim.EIO
      /\ s' = mk_machine O (uc_pdata s)
                (trace s ++ [EvRegulatorSetEnable 7%nat true])).
Proof.
  apply (adc_start_channel_vdd_enable_fails (Sim.ops None) Sim.ext 1
           (Sim.start (Sim.pdata 10 (Some 7%nat) (Some 8%nat) false 0))
           7%nat 8%nat (- Sim.EIO) O);
    [reflexivity | reflexivity | reflexivity | discriminate].
Defined.

Example empty_mask_on_sim :
  adc_start_channels true Sim.busy_ops Sim.ext 0
    (Sim.start (Sim.pdata 10 None None false 0))
  = (- ENOSYS, Sim.start (Sim.pdata 10 None None false 0)).
Proof. reflexivity. Qed.

(** ** Reference voltages *)

Section Voltage.

Context {W : Type}.
Variable ext : externals W.

Implicit Types (s : machine W).

Lemma mul_int_sign (v : Z) (negative : bool) :
  - INT_MAX <= v <= INT_MAX ->
  mul_int v (if negative then -1 else 1) = v * (if negative then -1 else 1).
Proof.
  intros Hv. unfold mul_int. apply to_int_id.
  unfold is_int, INT_MIN, INT_MAX in *. destruct negative; lia.
Qed.

(** C8: with no VDD supply configured, [adc_vdd_value] answers
    [-ENODATA] (and leaves [*uV] alone) when the cached [vdd_microvolts]
    is the no-data sentinel; otherwise it succeeds and stores the cached
    value, multiplied by -1 exactly when [vdd_polarity_negative] is set.
    Nothing is called and the platdata stays as it is. *)
Theorem adc_vdd_value_no_supply (regulators : bool) (uV : Z) s :
  vdd_supply (uc_pdata s) = None ->
  - INT_MAX <= vdd_microvolts (uc_pdata s) <= INT_MAX ->
  adc_vdd_value regulators ext uV s =
    if vdd_microvolts (uc_pdata s) =? - ENODATA
    then ((- ENODATA, uV), s)
    else ((0, vdd_microvolts (uc_pdata s)
              * (if vdd_polarity_negative (uc_pdata s) then -1 else 1)), s).
Proof.
  intros Hnone Hv.
  unfold adc_vdd_value, mbind, M_bind, get_pdata. rewrite Hnone. simpl.
  destruct (vdd_microvolts (uc_pdata s) =? - ENODATA); [reflexivity|].
  unfold mret, M_ret. rewrite mul_int_sign by assumption. reflexivity.
Qed.

(** A live query that goes well: the supply is looked up, its value
    [v >= 0] read, cached and returned with the sign. *)
Lemma adc_vdd_value_live_ok (uV : Z) s vdd supply w1 v w2 :
  vdd_supply (uc_pdata s) = Some vdd ->
  device_get_supply_regulator ext "vdd-supply" (Some vdd) (world s)
    = ((0, supply), w1) ->
  regulator_get_value ext supply w1 = (v, w2) ->
  0 <= v <= INT_MAX ->
  adc_vdd_value true ext uV s =
    ((0, v * (if vdd_polarity_negative (uc_pdata s) then -1 else 1)),
     mk_machine w2
       (set_vdd_microvolts v (set_vdd_supply supply (uc_pdata s)))
       (trace s ++ [EvGetSupplyRegulator "vdd-supply"; EvRegulatorGetValue supply])).
Proof.
  intros Hvdd Hget Hval Hv.
  unfold adc_vdd_value, adc_vdd_platdata_update. unfold_monad.
  simpl. rewrite !Hvdd. simpl. rewrite Hget. simpl. rewrite Hval. simpl.
  destruct (Z.ltb_spec v 0); [lia|]. simpl.
  destruct (Z.eqb_spec v (- ENODATA)); [unfold ENODATA in *; lia|].
  unfold mret, M_ret. rewrite mul_int_sign by (unfold INT_MAX in *; lia).
  rewrite <- app_assoc. reflexivity.
Qed.

(** C9: with a VDD supply configured (and regulators compiled in), a
    call of [adc_vdd_value] that succeeds has looked the supply up and
    read its value [v]; [v] is then the cached [vdd_microvolts], and
    [*uV] is [v], multiplied by -1 exactly when [vdd_polarity_negative]
    is set. *)
Theorem adc_vdd_value_live (uV : Z) s vdd :
  vdd_supply (uc_pdata s) = Some vdd ->
  (forall r w, is_int (regulator_get_value ext r w).1) ->
  let '((ret, uV'), s') := adc_vdd_value true ext uV s in
  ret = 0 ->
  exists supply w1 v,
    device_get_supply_regulator ext "vdd-supply" (Some vdd) (world s)
      = ((0, supply), w1)
    /\ regulator_get_value ext supply w1 = (v, world s')
    /\ 0 <= v
    /\ trace s' = trace s ++ [EvGetSupplyRegulator "vdd-supply";
                              EvRegulatorGetValue supply]
    /\ vdd_microvolts (uc_pdata s') = v
    /\ uV' = v * (if vdd_polarity_negative (uc_pdata s) then -1 else 1).
Proof.
  intros Hvdd Hint.
  destruct (device_get_supply_regulator ext "vdd-supply" (Some vdd) (world s))
    as [[r0 supply] w1] eqn:Hget.
  destruct (regulator_get_value ext supply w1) as [v w2] eqn:Hval.
  destruct (Z.eqb_spec r0 0) as [->|Hr0].
  - destruct (Z.ltb_spec v 0) as [Hneg|Hpos].
    + unfold adc_vdd_value, adc_vdd_platdata_update. unfold_monad.
      simpl. rewrite !Hvdd. simpl. rewrite Hget. simpl. rewrite Hval. simpl.
      rewrite (proj2 (Z.ltb_lt v 0) Hneg). simpl.
      assert (Hv0 : v <> 0) by lia.
      repeat (rewrite (proj2 (Z.eqb_neq v 0) Hv0); simpl).
      intros ->. lia.
    + pose proof (Hint supply w1) as Hv. rewrite Hval in Hv.
      unfold is_int in Hv. simpl in Hv.
      rewrite (adc_vdd_value_live_ok uV s vdd supply w1 v w2) by (first [assumption | lia]).
      intros _. exists supply, w1, v. simpl. repeat split; assumption.
  - unfold adc_vdd_value, adc_vdd_platdata_update. unfold_monad.
    simpl. rewrite !Hvdd. simpl. rewrite Hget. simpl.
    repeat (rewrite (proj2 (Z.eqb_neq r0 0) Hr0); simpl).
    intros ->. contradiction.
Qed.

End Voltage.

(** The examples of the specification: no supply and the sentinel give
    [-ENODATA]; no supply, 1800 uV and negative polarity give -1800. *)
Lemma adc_vdd_value_no_supply_witness :
  adc_vdd_value true Sim.ext 0
    (Sim.start (Sim.pdata 10 None None false (- ENODATA)))
  = ((- ENODATA, 0), Sim.start (Sim.pdata 10 None None false (- ENODATA)))
  /\ adc_vdd_value true Sim.ext 0
       (Sim.start (Sim.pdata 10 None None true 1800))
     = ((0, -1800), Sim.start (Sim.pdata 10 None None true 1800)).
Proof.
  split.
  - apply (adc_vdd_value_no_supply Sim.ext true 0
             (Sim.start (Sim.pdata 10 None None false (- ENODATA))));
      [reflexivity | vm_compute; split; discriminate].
  - apply (adc_vdd_value_no_supply Sim.ext true 0
             (Sim.start (Sim.pdata 10 None None true 1800)));
      [reflexivity | vm_compute; split; discriminate].
Defined.

(** The example of the specification: a supply that reports 3300 uV and
    positive polarity give 3300, and 3300 is cached. *)
Lemma adc_vdd_value_live_witness :
  let s := Sim.start (Sim.pdata 10 (Some 1%nat) None false (- ENODATA)) in
  let '((ret, uV'), s') := adc_vdd_value true Sim.ext 0 s in
  ret = 0 /\ uV' = 3300 /\ vdd_microvolts (uc_pdata s') = 3300
  /\ exists supply w1 v,
       device_get_supply_regulator Sim.ext "vdd-supply" (Some 1%nat) (world s)
         = ((0, supply), w1)
       /\ regulator_get_value Sim.ext supply w1 = (v, world s')
       /\ 0 <= v
       /\ trace s' = trace s ++ [EvGetSupplyRegulator "vdd-supply";
                                 EvRegulatorGetValue supply]
       /\ vdd_microvolts (uc_pdata s') = v
       /\ uV' = v * (if vdd_polarity_negative (uc_pdata s) then -1 else 1).
Proof.
  pose proof (adc_vdd_value_live Sim.ext 0
                (Sim.start (Sim.pdata 10 (Some 1%nat) None false (- ENODATA)))
                1%nat eq_refl) as H.
  cbv zeta.
  destruct (adc_vdd_value true Sim.ext 0
              (Sim.start (Sim.pdata 10 (Some 1%nat) None false (- ENODATA))))
    as [[ret uV'] s'] eqn:E.
  vm_compute in E. injection E as <- <- <-.
  split; [reflexivity|]. split; [reflexivity|]. split; [reflexivity|].
  apply H; [|reflexivity].
  intros r w. vm_compute. split; discriminate.
Defined.

(** ** The fallback for drivers without a multi-channel start *)

Section Fallback.

Context {W : Type}.
Variable regulators : bool.
Variable ADC_MAX_CHANNEL : Z.
Variable ops : adc_ops W.
Variable ext : externals W.

Implicit Types (s : machine W) (channels readings : list adc_channel).

Lemma single_cycle_eq (channel d : Z) s :
  single_cycle regulators ops ext channel d s =
    let (ret, s1) := adc_start_channel regulators ops ext channel s in
    if negb (ret =? 0) then ((ret, d), s1) else
    adc_channel_data ops channel d s1.
Proof.
  unfold single_cycle, mbind, M_bind.
  destruct (adc_start_channel regulators ops ext channel s) as [r s1].
  destruct (negb _); reflexivity.
Qed.

(** One round of the [for] loop. *)
Lemma single_shot_loop_step rounds (channel mask d : Z) channels pos s :
  single_shot_loop regulators ops ext (S rounds) channel mask d channels pos s =
    if Z.land (Z.shiftr mask channel) 1 =? 0
    then single_shot_loop regulators ops ext rounds (channel + 1) mask d
           channels pos s
    else
      let (ret, s1) := adc_start_channel regulators ops ext channel s in
      if negb (ret =? 0) then ((ret, channels), s1) else
      let '((ret, d'), s2) := adc_channel_data ops channel d s1 in
      if negb (ret =? 0) then ((ret, channels), s2) else
      single_shot_loop regulators ops ext rounds (channel + 1) mask d'
        (<[pos := mk_adc_channel channel d']> channels) (S pos) s2.
Proof.
  simpl. destruct (_ =? 0); [reflexivity|].
  unfold mbind at 1, M_bind at 1.
  destruct (adc_start_channel regulators ops ext channel s) as [r s1].
  destruct (negb (r =? 0)); [reflexivity|].
  unfold mbind, M_bind.
  destruct (adc_channel_data ops channel d s1) as [[r2 d2] s2].
  destruct (negb (r2 =? 0)); reflexivity.
Qed.

(** The loop runs the cycles of the requested channels in ascending
    order, up to the first that fails, and stores each reading as soon
    as its cycle is complete. *)
Lemma single_shot_loop_cycles (mask : Z) rounds :
  forall (channel d : Z) channels pos s,
    0 <= channel ->
    exists ret readings s',
      cycles regulators ops ext s d
        (filter (fun c => Z.testbit mask c = true)
           (seqZ channel (Z.of_nat rounds)))
        ret readings s'
      /\ single_shot_loop regulators ops ext rounds channel mask d channels pos s
         = ((ret, store_from pos readings channels), s').
Proof.
  induction rounds as [|rounds IH]; intros channel d channels pos s Hc.
  - exists 0, [], s. split; [constructor | reflexivity].
  - rewrite seqZ_cons by lia.
    replace (Z.pred (Z.of_nat (S rounds))) with (Z.of_nat rounds) by lia.
    replace (Z.succ channel) with (channel + 1) by lia.
    rewrite single_shot_loop_step, channel_bit_test by assumption.
    destruct (Z.testbit mask channel) eqn:Hbit; simpl negb; cbv iota.
    + rewrite filter_cons_True by assumption.
      pose proof (single_cycle_eq channel d s) as Hcyc.
      destruct (adc_start_channel regulators ops ext channel s) as [r s1].
      destruct (Z.eqb_spec r 0) as [->|Hr]; simpl negb in *; cbv iota in *.
      * destruct (adc_channel_data ops channel d s1) as [[r2 d2] s2].
        destruct (Z.eqb_spec r2 0) as [->|Hr2]; simpl negb; cbv iota.
        -- destruct (IH (channel + 1) d2
                       (<[pos := mk_adc_channel channel d2]> channels) (S pos) s2)
             as (ret & readings & s' & Hcycles & Hloop); [lia|].
           exists ret, (mk_adc_channel channel d2 :: readings), s'.
           split; [|exact Hloop].
           eapply cycles_next; eassumption.
        -- exists r2, [], s2. split; [|reflexivity].
           eapply cycles_abort; eassumption.
      * exists r, [], s1. split; [|reflexivity].
        eapply cycles_abort; eassumption.
    + rewrite filter_cons_False by (rewrite Hbit; discriminate).
      apply IH. lia.
Qed.

Lemma store_from_in_range readings :
  forall pos channels,
    (pos + length readings <= length channels)%nat ->
    store_from pos readings channels
    = take pos channels ++ readings ++ drop (pos + length readings) channels.
Proof.
  induction readings as [|r readings IH]; intros pos channels Hlen; simpl.
  - rewrite Nat.add_0_r, take_drop. reflexivity.
  - simpl in Hlen. rewrite IH by (rewrite length_insert; lia).
    rewrite take_insert_lt, drop_insert_lt by lia.
    rewrite insert_take_drop by (rewrite length_take; lia).
    rewrite take_take, Nat.min_l by lia.
    rewrite drop_ge by (rewrite length_take; lia).
    rewrite <- app_assoc. simpl. rewrite Nat.add_succ_r. reflexivity.
Qed.

Lemma store_from_written readings channels :
  (length readings <= length channels)%nat ->
  store_from 0 readings channels = written readings channels.
Proof.
  intros Hlen. rewrite store_from_in_range by (simpl; lia). reflexivity.
Qed.

(** Cycles that all succeed give one reading per channel, in the order
    of the channels. *)
Lemma cycles_ok_ids s d cs ret readings s' :
  cycles regulators ops ext s d cs ret readings s' ->
  ret = 0 -> map id readings = cs.
Proof.
  induction 1 as [| |s0 d0 c cs0 sample s1 ret0 readings0 s2 Hc Hrest IH];
    intros Hret; simpl.
  - reflexivity.
  - contradiction.
  - rewrite IH by assumption. reflexivity.
Qed.

Lemma cycles_length s d cs ret readings s' :
  cycles regulators ops ext s d cs ret readings s' ->
  (length readings <= length cs)%nat.
Proof. induction 1; simpl; lia. Qed.

(** Cycles that fail stop at the failing channel: the readings are those
    of the channels before it, and the state is the one its cycle
    left. *)
Lemma cycles_failed s d cs ret readings s' :
  cycles regulators ops ext s d cs ret readings s' ->
  ret <> 0 ->
  exists c rest s1 d',
    cs = map id readings ++ c :: rest
    /\ cycles regulators ops ext s d (map id readings) 0 readings s1
    /\ single_cycle regulators ops ext c (data_after d readings) s1
       = ((ret, d'), s').
Proof.
  induction 1 as [|s0 d0 c cs0 ret0 d1 s1 Hc Hne
                  |s0 d0 c cs0 sample s1 ret0 readings0 s2 Hc Hrest IH];
    intros Hret.
  - contradiction.
  - exists c, cs0, s0, d1. split; [reflexivity|]. split; [constructor|].
    exact Hc.
  - destruct (IH Hret) as (c' & rest & s3 & d' & Hcs & Hdone & Hfail).
    exists c', rest, s3, d'. split; [simpl; rewrite Hcs; reflexivity|].
    split; [simpl; eapply cycles_next; eassumption|].
    replace (data_after d0 (mk_adc_channel c sample :: readings0))
      with (data_after sample readings0); [exact Hfail|].
    unfold data_after. simpl map.
    destruct (map data readings0) as [|x l] eqn:E; [reflexivity|].
    rewrite last_cons_cons. destruct (last (x :: l)) eqn:El; [reflexivity|].
    apply last_None in El. discriminate.
Qed.

Lemma data_after_cons (d : Z) (r : adc_channel) readings :
  data_after d (r :: readings) = data_after (data r) readings.
Proof.
  unfold data_after. simpl map.
  destruct (map data readings) as [|x l] eqn:E; [reflexivity|].
  rewrite last_cons_cons. destruct (last (x :: l)) eqn:El; [reflexivity|].
  apply last_None in El. discriminate.
Qed.

(** The cycles of a list of channels have one outcome. *)
Lemma cycles_functional s d cs ret1 readings1 s1 :
  cycles regulators ops ext s d cs ret1 readings1 s1 ->
  forall ret2 readings2 s2,
    cycles regulators ops ext s d cs ret2 readings2 s2 ->
    ret1 = ret2 /\ readings1 = readings2 /\ s1 = s2.
Proof.
  induction 1 as [s0 d0
                 |s0 d0 c cs0 ret0 d1 s1' Hc Hne
                 |s0 d0 c cs0 sample s1' ret0 readings0 s2' Hc Hrest IH];
    intros ret2 readings2 s2 H2; inversion H2; subst.
  - repeat split.
  - match goal with H : single_cycle _ _ _ c d0 s0 = _ |- _ =>
      rewrite Hc in H; injection H as <- _ <- end.
    repeat split.
  - match goal with H : single_cycle _ _ _ c d0 s0 = _ |- _ =>
      rewrite Hc in H; injection H as -> _ _ end.
    contradiction.
  - match goal with H : single_cycle _ _ _ c d0 s0 = _, Hn : _ <> 0 |- _ =>
      rewrite Hc in H; injection H as <- _ _; contradiction end.
  - match goal with H : single_cycle _ _ _ c d0 s0 = _ |- _ =>
      rewrite Hc in H; injection H as <- <- end.
    match goal with H : cycles _ _ _ s1' sample cs0 _ _ _ |- _ =>
      destruct (IH _ _ _ H) as (-> & -> & ->) end.
    repeat split.
Qed.

(** Cycles that succeed, followed by one that fails. *)
Lemma cycles_then_failure s d done readings s1 c ret d' s' rest :
  cycles regulators ops ext s d done 0 readings s1 ->
  single_cycle regulators ops ext c (data_after d readings) s1 = ((ret, d'), s') ->
  ret <> 0 ->
  cycles regulators ops ext s d (done ++ c :: rest) ret readings s'.
Proof.
  intros Hdone. remember 0 as r0 eqn:Hr0. revert Hr0.
  induction Hdone as [s0 d0
                     |s0 d0 c0 cs0 ret0 d1 s1' Hc Hne
                     |s0 d0 c0 cs0 sample s1' ret0 readings0 s2' Hc Hrest IH];
    intros Hr0 Hfail Hret.
  - simpl. eapply cycles_abort; eassumption.
  - subst. contradiction.
  - simpl. eapply cycles_next; [eassumption|].
    apply IH; [assumption | | assumption].
    rewrite data_after_cons in Hfail. exact Hfail.
Qed.

Lemma cycle_fails_iff (channel d : Z) s ret s' :
  cycle_fails regulators ops ext channel d s ret s'
  <-> ret <> 0
      /\ exists d', single_cycle regulators ops ext channel d s = ((ret, d'), s').
Proof.
  unfold cycle_fails. rewrite single_cycle_eq.
  destruct (adc_start_channel regulators ops ext channel s) as [r s1].
  split.
  - intros [Hret [Hstart | (s2 & d' & Hstart & Hread)]]; split; try assumption.
    + injection Hstart as -> ->.
      destruct (Z.eqb_spec ret 0); [contradiction|]. exists d. reflexivity.
    + injection Hstart as -> ->. exists d'. exact Hread.
  - intros [Hret [d' Hrun]]. split; [assumption|].
    destruct (Z.eqb_spec r 0) as [->|Hr]; simpl negb in Hrun; cbv iota in Hrun.
    + right. exists s1, d'. split; [reflexivity | exact Hrun].
    + left. injection Hrun as -> _ ->. reflexivity.
Qed.

Lemma requested_channels_rounds (mask : Z) :
  filter (fun c => Z.testbit mask c = true)
    (seqZ 0 (Z.of_nat (Z.to_nat (ADC_MAX_CHANNEL + 1))))
  = requested_channels ADC_MAX_CHANNEL mask.
Proof.
  unfold requested_channels. f_equal.
  destruct (Z.le_gt_cases 0 (ADC_MAX_CHANNEL + 1)).
  - rewrite Z2Nat.id by assumption. reflexivity.
  - rewrite Z2Nat.nonpos by lia. rewrite !seqZ_nil by lia. reflexivity.
Qed.

(** What [_adc_channels_single_shot] does, in one statement. *)
Lemma adc_channels_single_shot_cycles (mask d : Z) channels s :
  exists ret readings s',
    cycles regulators ops ext s d
      (requested_channels ADC_MAX_CHANNEL mask) ret readings s'
    /\ _adc_channels_single_shot regulators ADC_MAX_CHANNEL ops ext mask d
         channels s
       = ((ret, store_from 0 readings channels), s').
Proof.
  unfold _adc_channels_single_shot.
  rewrite <- requested_channels_rounds.
  apply single_shot_loop_cycles. lia.
Qed.

End Fallback.

(** *** The requested channels *)

Lemma filter_seqZ_sorted (P : Z -> Prop) `{!forall c, Decision (P c)} (n : nat) :
  forall m, StronglySorted Z.lt (filter P (seqZ m (Z.of_nat n))).
Proof.
  induction n as [|n IH]; intros m.
  - constructor.
  - rewrite seqZ_cons by lia.
    replace (Z.pred (Z.of_nat (S n))) with (Z.of_nat n) by lia.
    rewrite filter_cons. destruct (decide (P m)); [|apply IH].
    constructor; [apply IH|].
    apply Forall_forall. intros x Hx.
    apply list_elem_of_filter in Hx as [_ Hx].
    apply elem_of_seqZ in Hx. lia.
Qed.

Lemma requested_channels_sorted (ADC_MAX_CHANNEL mask : Z) :
  StronglySorted Z.lt (requested_channels ADC_MAX_CHANNEL mask).
Proof.
  rewrite <- requested_channels_rounds. apply filter_seqZ_sorted.
Qed.

Lemma requested_channels_bits (ADC_MAX_CHANNEL mask c : Z) :
  0 <= mask < 2 ^ (ADC_MAX_CHANNEL + 1) ->
  Z.testbit mask c = true <-> c ∈ requested_channels ADC_MAX_CHANNEL mask.
Proof.
  intros Hmask. unfold requested_channels.
  rewrite list_elem_of_filter, elem_of_seqZ. split; [|tauto].
  intros Hbit. split; [assumption|].
  assert (0 <= c).
  { destruct (Z.lt_ge_cases c 0) as [Hneg|]; [|assumption].
    rewrite Z.testbit_neg_r in Hbit by assumption. discriminate. }
  split; [assumption|].
  destruct (Z.lt_ge_cases c (ADC_MAX_CHANNEL + 1)) as [|Hge]; [lia|].
  pose proof (testbit_ge_pow2 mask c (proj1 Hmask) H Hbit).
  assert (2 ^ (ADC_MAX_CHANNEL + 1) <= 2 ^ c) by (apply Z.pow_le_mono_r; lia).
  lia.
Qed.

(** *** The claims on the fallback *)

Section FallbackClaims.

Context {W : Type}.
Variable regulators : bool.
Variable ADC_MAX_CHANNEL : Z.
Variable ops : adc_ops W.
Variable ext : externals W.

Implicit Types (s : machine W) (channels readings : list adc_channel).

(** [adc_channels_single_shot] falls back on the single-channel cycles
    exactly when the driver has no multi-channel start. *)
Lemma adc_channels_single_shot_fallback (name : string) (mask d : Z) channels s w :
  start_channels ops = None ->
  uclass_get_device_by_name ext name (world s) = (0, w) ->
  adc_channels_single_shot regulators ADC_MAX_CHANNEL ops ext name mask d
    channels s
  = _adc_channels_single_shot regulators ADC_MAX_CHANNEL ops ext mask d
      channels (mk_machine w (uc_pdata s) (trace s ++ [EvGetDeviceByName name])).
Proof.
  intros Hnone Hdev.
  unfold adc_channels_single_shot, adc_start_channels, mbind, M_bind, call.
  rewrite Hdev, Hnone. reflexivity.
Qed.

(** C6: when [_adc_channels_single_shot] succeeds, the caller's array
    starts with one reading per set bit of the requested mask (every bit
    of the mask being a channel up to [ADC_MAX_CHANNEL], and the array
    having room for them).  The readings are in strictly ascending
    channel order, and each holds the sample of a full cycle - start,
    then read - of its channel, run in the state the cycle before it
    left. *)
Theorem fallback_readings_ascending (mask d : Z) channels s :
  0 <= mask < 2 ^ (ADC_MAX_CHANNEL + 1) ->
  (length (requested_channels ADC_MAX_CHANNEL mask) <= length channels)%nat ->
  let '((ret, channels'), s') :=
    _adc_channels_single_shot regulators ADC_MAX_CHANNEL ops ext mask d
      channels s in
  ret = 0 ->
  exists readings,
    cycles regulators ops ext s d
      (requested_channels ADC_MAX_CHANNEL mask) 0 readings s'
    /\ channels' = written readings channels
    /\ map id readings = requested_channels ADC_MAX_CHANNEL mask
    /\ StronglySorted Z.lt (map id readings)
    /\ (forall c, Z.testbit mask c = true <-> c ∈ map id readings).
Proof.
  intros Hmask Hroom.
  destruct (adc_channels_single_shot_cycles regulators ADC_MAX_CHANNEL ops ext
              mask d channels s) as (ret & readings & s' & Hcycles & ->).
  intros ->. exists readings.
  pose proof (cycles_ok_ids _ _ _ _ _ _ _ _ _ Hcycles eq_refl) as Hids.
  pose proof (cycles_length _ _ _ _ _ _ _ _ _ Hcycles) as Hlen.
  split; [assumption|].
  split; [apply store_from_written; lia|].
  split; [assumption|]. rewrite Hids.
  split; [apply requested_channels_sorted|].
  intros c. apply requested_channels_bits. assumption.
Qed.

Lemma fallback_runs_into_failure (mask d : Z) channels s
    readings c rest s1 ret s' :
  (length (requested_channels ADC_MAX_CHANNEL mask) <= length channels)%nat ->
  requested_channels ADC_MAX_CHANNEL mask = map id readings ++ c :: rest ->
  cycles regulators ops ext s d (map id readings) 0 readings s1 ->
  cycle_fails regulators ops ext c (data_after d readings) s1 ret s' ->
  _adc_channels_single_shot regulators ADC_MAX_CHANNEL ops ext mask d channels s
  = ((ret, written readings channels), s').
Proof.
  intros Hroom Hreq Hdone Hfail.
  apply cycle_fails_iff in Hfail as [Hret [d' Hrun]].
  pose proof (cycles_then_failure _ _ _ _ _ _ _ _ _ _ _ _ rest Hdone Hrun Hret)
    as Hall.
  rewrite <- Hreq in Hall.
  destruct (adc_channels_single_shot_cycles regulators ADC_MAX_CHANNEL ops ext
              mask d channels s) as (ret2 & readings2 & s2 & Hcycles & ->).
  destruct (cycles_functional _ _ _ _ _ _ _ _ _ Hcycles _ _ _ Hall) as (-> & -> & ->).
  pose proof (cycles_length _ _ _ _ _ _ _ _ _ Hall) as Hlen.
  rewrite store_from_written by lia. reflexivity.
Qed.

Lemma fallback_failure_is_first (mask d : Z) channels s :
  (length (requested_channels ADC_MAX_CHANNEL mask) <= length channels)%nat ->
  let '((ret, channels'), s') :=
    _adc_channels_single_shot regulators ADC_MAX_CHANNEL ops ext mask d
      channels s in
  ret <> 0 ->
  exists readings c rest s1,
    requested_channels ADC_MAX_CHANNEL mask = map id readings ++ c :: rest
    /\ cycles regulators ops ext s d (map id readings) 0 readings s1
    /\ cycle_fails regulators ops ext c (data_after d readings) s1 ret s'
    /\ channels' = written readings channels.
Proof.
  intros Hroom.
  destruct (adc_channels_single_shot_cycles regulators ADC_MAX_CHANNEL ops ext
              mask d channels s) as (ret & readings & s' & Hcycles & ->).
  intros Hret.
  pose proof (cycles_length _ _ _ _ _ _ _ _ _ Hcycles) as Hlen.
  destruct (cycles_failed _ _ _ _ _ _ _ _ _ Hcycles Hret)
    as (c & rest & s1 & d' & Hcs & Hdone & Hfail).
  exists readings, c, rest, s1.
  split; [assumption|]. split; [assumption|].
  split; [apply cycle_fails_iff; split; [assumption | exists d'; assumption]|].
  apply store_from_written. lia.
Qed.

(** C7 (amended): when the cycles of the requested channels before [c]
    succeed and the start or the read of [c] fails with [ret],
    [_adc_channels_single_shot] returns [ret] and stops there: the state
    it leaves is the one the failing call left, so no later channel is
    started or read.  The readings of the channels before [c] are not
    taken back: they are in the caller's array, from its first entry on,
    and the rest of the array is as it was.  Conversely, a result other
    than 0 is always the failure of the first requested channel whose
    start or read fails. *)
Theorem fallback_stops_at_first_failure (mask d : Z) channels s :
  (length (requested_channels ADC_MAX_CHANNEL mask) <= length channels)%nat ->
  (forall readings c rest s1 ret s',
     requested_channels ADC_MAX_CHANNEL mask = map id readings ++ c :: rest ->
     cycles regulators ops ext s d (map id readings) 0 readings s1 ->
     cycle_fails regulators ops ext c (data_after d readings) s1 ret s' ->
     _adc_channels_single_shot regulators ADC_MAX_CHANNEL ops ext mask d
       channels s
     = ((ret, written readings channels), s'))
  /\ (let '((ret, channels'), s') :=
        _adc_channels_single_shot regulators ADC_MAX_CHANNEL ops ext mask d
          channels s in
      ret <> 0 ->
      exists readings c rest s1,
        requested_channels ADC_MAX_CHANNEL mask = map id readings ++ c :: rest
        /\ cycles regulators ops ext s d (map id readings) 0 readings s1
        /\ cycle_fails regulators ops ext c (data_after d readings) s1 ret s'
        /\ channels' = written readings channels).
Proof.
  intros Hroom. split.
  - intros readings c rest s1 ret s'. apply fallback_runs_into_failure. assumption.
  - apply fallback_failure_is_first. assumption.
Qed.

End FallbackClaims.

(** The example of the specification: over the mask 0b1010 the fallback
    gives the readings of channel 1 and of channel 3, in that order. *)
Lemma fallback_readings_ascending_witness :
  let s := Sim.start (Sim.pdata 10 None None false 0) in
  let channels := [mk_adc_channel 0 0; mk_adc_channel 0 0] in
  let '((ret, channels'), s') :=
    _adc_channels_single_shot true 31 (Sim.ops None) Sim.ext 10 0 channels s in
  ret = 0
  /\ channels' = [mk_adc_channel 1 101; mk_adc_channel 3 103]
  /\ exists readings,
       cycles true (Sim.ops None) Sim.ext s 0 (requested_channels 31 10) 0
         readings s'
       /\ channels' = written readings channels
       /\ map id readings = requested_channels 31 10
       /\ StronglySorted Z.lt (map id readings)
       /\ (forall c, Z.testbit 10 c = true <-> c ∈ map id readings).
Proof.
  pose proof (fallback_readings_ascending true 31 (Sim.ops None) Sim.ext 10 0
                [mk_adc_channel 0 0; mk_adc_channel 0 0]
                (Sim.start (Sim.pdata 10 None None false 0))) as H.
  cbv zeta.
  destruct (_adc_channels_single_shot true 31 (Sim.ops None) Sim.ext 10 0
              [mk_adc_channel 0 0; mk_adc_channel 0 0]
              (Sim.start (Sim.pdata 10 None None false 0)))
    as [[ret channels'] s'] eqn:E.
  vm_compute in E. injection E as <- <- <-.
  split; [reflexivity|]. split; [reflexivity|].
  apply H; [split; [lia | reflexivity] | vm_compute; lia | reflexivity].
Defined.

(** C7, as the specification states it, fails: over the mask 0b1010,
    with a driver whose start of channel 3 fails, the fallback returns
    the failure, and the reading of channel 1 is in the caller's array. *)
Lemma fallback_keeps_partial_readings :
  let channels := [mk_adc_channel 0 0; mk_adc_channel 0 0] in
  let '((ret, channels'), _) :=
    _adc_channels_single_shot true 31 (Sim.ops (Some 3)) Sim.ext 10 0 channels
      (Sim.start (Sim.pdata 10 None None false 0)) in
  ret = - Sim.EIO
  /\ channels' = [mk_adc_channel 1 101; mk_adc_channel 0 0]
  /\ channels' <> channels.
Proof.
  vm_compute. split; [reflexivity|]. split; [reflexivity|]. discriminate.
Qed.

Lemma fallback_stops_at_first_failure_witness :
  let s := Sim.start (Sim.pdata 10 None None false 0) in
  let channels := [mk_adc_channel 0 0; mk_adc_channel 0 0] in
  (length (requested_channels 31 10) <= length channels)%nat
  /\ exists s1 s',
       cycles true (Sim.ops (Some 3)) Sim.ext s 0 [1] 0 [mk_adc_channel 1 101] s1
       /\ cycle_fails true (Sim.ops (Some 3)) Sim.ext 3 101 s1 (- Sim.EIO) s'
       /\ _adc_channels_single_shot true 31 (Sim.ops (Some 3)) Sim.ext 10 0
            channels s
          = ((- Sim.EIO, [mk_adc_channel 1 101; mk_adc_channel 0 0]), s').
Proof.
  intros s channels.
  assert (Hroom : (length (requested_channels 31 10) <= length channels)%nat)
    by (vm_compute; lia).
  split; [exact Hroom|].
  set (s1 := (single_cycle true (Sim.ops (Some 3)) Sim.ext 1 0 s).2).
  set (s' := (adc_start_channel true (Sim.ops (Some 3)) Sim.ext 3 s1).2).
  assert (Hreq : requested_channels 31 10
                 = map id [mk_adc_channel 1 101] ++ 3 :: [])
    by (vm_compute; reflexivity).
  assert (Hdone : cycles true (Sim.ops (Some 3)) Sim.ext s 0
                    (map id [mk_adc_channel 1 101]) 0 [mk_adc_channel 1 101] s1).
  { eapply cycles_next with (s1 := s1); [vm_compute; reflexivity|].
    apply cycles_done. }
  assert (Hfail : cycle_fails true (Sim.ops (Some 3)) Sim.ext 3
                    (data_after 0 [mk_adc_channel 1 101]) s1 (- Sim.EIO) s').
  { split; [discriminate|]. left. vm_compute. reflexivity. }
  exists s1, s'.
  split; [exact Hdone|]. split; [exact Hfail|].
  refine (eq_trans
            (proj1 (fallback_stops_at_first_failure true 31 (Sim.ops (Some 3))
                      Sim.ext 10 0 channels s Hroom)
               [mk_adc_channel 1 101] 3 [] s1 (- Sim.EIO) s' Hreq Hdone Hfail) _).
  vm_compute. reflexivity.
Defined.

(** * Beyond the claims *)

(** ** What a call leaves of the trace and of the platdata *)

Lemma only_supplies_driver_calls t : only_supplies t -> driver_calls t = [].
Proof.
  unfold only_supplies, driver_calls. induction 1 as [|e t He _ IH]; [reflexivity|].
  rewrite filter_cons_False; [exact IH|].
  destruct e; try discriminate He; simpl; discriminate.
Qed.

Lemma only_supplies_started t : only_supplies t -> started_channels t = [].
Proof.
  unfold only_supplies, started_channels. induction 1 as [|e t He _ IH]; [reflexivity|].
  destruct e; try discriminate He. simpl. exact IH.
Qed.

Lemma only_supplies_reads t : only_supplies t -> channel_data_calls t = O.
Proof.
  unfold only_supplies, channel_data_calls. induction 1 as [|e t He _ IH]; [reflexivity|].
  rewrite filter_cons_False; [exact IH|].
  destruct e; try discriminate He; simpl; discriminate.
Qed.

Lemma started_channels_app t1 t2 :
  started_channels (t1 ++ t2) = started_channels t1 ++ started_channels t2.
Proof. unfold started_channels. apply omap_app. Qed.

Lemma driver_calls_app t1 t2 :
  driver_calls (t1 ++ t2) = driver_calls t1 ++ driver_calls t2.
Proof. unfold driver_calls. apply filter_app. Qed.

Lemma started_channels_busy_rounds channel n :
  started_channels (busy_rounds channel n) = [].
Proof.
  induction n as [|n IH]; [reflexivity|].
  rewrite busy_rounds_S, started_channels_app, IH. reflexivity.
Qed.

Section Shapes.

Context {W : Type}.
Variable regulators : bool.
Variable ops : adc_ops W.
Variable ext : externals W.

Implicit Types (s : machine W).

(** [adc_supply_enable] switches supplies on, at most two, and does
    nothing else. *)
Lemma adc_supply_enable_shape s :
  let '(ret, s') := adc_supply_enable regulators ext s in
  uc_pdata s' = uc_pdata s
  /\ exists t, trace s' = trace s ++ t /\ only_supplies t /\ (length t <= 2)%nat.
Proof.
  unfold adc_supply_enable. destruct regulators.
  - unfold_monad.
    destruct (vdd_supply (uc_pdata s)) as [vdd|];
      [destruct (regulator_set_enable ext vdd true (world s)) as [r w] | ];
      cbn [fst snd world uc_pdata trace];
      (destruct (_ =? 0); [destruct (vss_supply (uc_pdata s)) as [vss|]|]);
      try (destruct (regulator_set_enable ext vss true _) as [r' w']);
      cbn [fst snd world uc_pdata trace]; split; try reflexivity.
    all: first
      [ exists [EvRegulatorSetEnable vdd true; EvRegulatorSetEnable vss true];
        rewrite <- app_assoc; split; [reflexivity|];
        split; [repeat constructor | simpl; lia]
      | exists [EvRegulatorSetEnable vdd true];
        split; [reflexivity|]; split; [repeat constructor | simpl; lia]
      | exists [EvRegulatorSetEnable vss true];
        split; [reflexivity|]; split; [repeat constructor | simpl; lia]
      | exists []; rewrite app_nil_r;
        split; [reflexivity|]; split; [constructor | simpl; lia] ].
  - split; [reflexivity|]. exists []. rewrite app_nil_r.
    split; [reflexivity|]. split; [constructor | simpl; lia].
Qed.

(** [adc_start_channel] switches supplies on and then, at most once and
    as its last act, starts the channel; when it succeeds it has started
    it, and the channel was valid. *)
Lemma adc_start_channel_shape (channel : Z) s :
  let '(ret, s') := adc_start_channel regulators ops ext channel s in
  uc_pdata s' = uc_pdata s
  /\ exists sup,
       only_supplies sup
       /\ (trace s' = trace s ++ sup /\ ret <> 0
           \/ trace s' = trace s ++ sup ++ [EvStartChannel channel]
              /\ check_channel (uc_pdata s) channel CHECK_NUMBER = 0).
Proof.
  rewrite adc_start_channel_eq.
  destruct (start_channel ops) as [f|].
  - cbv zeta.
    destruct (check_channel_result (uc_pdata s) channel CHECK_NUMBER) as [Hok|Hbad].
    + rewrite Hok. change (negb (0 =? 0)) with false. cbv iota.
      pose proof (adc_supply_enable_shape s) as Hsup.
      destruct (adc_supply_enable regulators ext s) as [r s1].
      destruct Hsup as (Hpd & t & Ht & Honly & _).
      destruct (Z.eqb_spec r 0) as [->|Hr]; simpl negb; cbv iota.
      * unfold call. destruct (f channel (world s1)) as [r' w'].
        cbn [uc_pdata trace]. split; [assumption|].
        exists t. split; [assumption|]. right.
        rewrite Ht, <- app_assoc. split; reflexivity.
      * split; [assumption|]. exists t. split; [assumption|]. left.
        split; assumption.
    + rewrite Hbad. change (negb (- EINVAL =? 0)) with true. cbv iota.
      split; [reflexivity|]. exists []. split; [constructor|]. left.
      rewrite app_nil_r. split; [reflexivity | discriminate].
  - split; [reflexivity|]. exists []. split; [constructor|]. left.
    rewrite app_nil_r. split; [reflexivity | discriminate].
Qed.

(** The loop of [adc_channel_data], whatever the driver answers: between
    one and [timeout_us + 1] reads, all of this channel, and busy rounds
    up to the last read. *)
Lemma channel_data_loop_shape f (channel : Z) n :
  forall (d : Z) s,
    let '((ret, _), s') := channel_data_loop f channel d n s in
    uc_pdata s' = uc_pdata s
    /\ exists k, (k <= n)%nat
         /\ (ret <> - EBUSY
             /\ trace s' = trace s ++ busy_rounds channel k ++ [EvChannelData channel]
             \/ ret = - EBUSY /\ k = n
                /\ trace s' = trace s ++ busy_rounds channel (S n)).
Proof.
  induction n as [|n IH]; intros d s; rewrite channel_data_loop_step;
    destruct (f channel d (world s)) as [[r d'] w]; cbv zeta;
    destruct (Z.eq_dec r (- EBUSY)) as [->|Hr].
  - rewrite busy_test_false by reflexivity.
    split; [reflexivity|]. exists O. split; [lia|]. right.
    cbn [trace]. rewrite <- app_assoc. repeat split.
  - rewrite busy_test_true by assumption. split; [reflexivity|].
    exists O. split; [lia|]. left. split; [assumption | reflexivity].
  - rewrite busy_test_false by reflexivity.
    specialize (IH d' (mk_machine w (uc_pdata s)
                         ((trace s ++ [EvChannelData channel]) ++ [EvSdelay 5]))).
    cbn [trace uc_pdata] in *.
    destruct (channel_data_loop f channel d' n _) as [[r2 d2] s2].
    destruct IH as (Hpd & k & Hk & Hcase). split; [assumption|].
    exists (S k). split; [lia|].
    destruct Hcase as [[Hne Ht] | (Hbusy & -> & Ht)]; [left | right].
    + split; [assumption|]. rewrite Ht, busy_rounds_S, <- !app_assoc. reflexivity.
    + split; [assumption|]. split; [reflexivity|].
      rewrite Ht, (busy_rounds_S channel (S n)), <- !app_assoc. reflexivity.
  - rewrite busy_test_true by assumption. split; [reflexivity|].
    exists O. split; [lia|]. left. split; [assumption | reflexivity].
Qed.

End Shapes.

(** ** Requests that never reach the hardware, and those that do *)

Section Requests.

Context {W : Type}.
Variable regulators : bool.
Variable ops : adc_ops W.
Variable ext : externals W.

Implicit Types (s : machine W) (channels : list adc_channel).

Lemma adc_start_channels_eq (mask : Z) s :
  adc_start_channels regulators ops ext mask s =
    match start_channels ops with
    | None => (- ENOSYS, s)
    | Some f =>
        let ret := check_channel (uc_pdata s) (to_int mask) CHECK_MASK in
        if negb (ret =? 0) then (ret, s) else
        let (ret, s1) := adc_supply_enable regulators ext s in
        if negb (ret =? 0) then (ret, s1) else
        call (EvStartChannels mask) (f mask) s1
    end.
Proof.
  unfold adc_start_channels. destruct (start_channels ops); [|reflexivity].
  unfold mbind at 1, M_bind at 1, get_pdata. cbv beta iota zeta.
  destruct (negb _); [reflexivity|].
  unfold mbind, M_bind. destruct (adc_supply_enable regulators ext s) as [r s1].
  destruct (negb _); reflexivity.
Qed.

Lemma check_channel_refused (pd : adc_uclass_platdata) (value : Z) (b : bool) :
  check_channel pd value b <> 0 -> check_channel pd value b = - EINVAL.
Proof. destruct (check_channel_result pd value b); [contradiction | auto]. Qed.

(** X1: A request the validator refuses changes nothing: no regulator is
    touched, the driver is not called, [*data] and the array stay as
    they are.  The result is [-EINVAL], unless the driver lacks the
    operation: that test comes first and gives [-ENOSYS]. *)
Theorem refused_request_untouched (channel mask d : Z) channels s :
  (check_channel (uc_pdata s) channel CHECK_NUMBER <> 0 ->
   adc_start_channel regulators ops ext channel s
   = (match start_channel ops with
      | Some _ => - EINVAL | None => - ENOSYS end, s)
   /\ adc_channel_data ops channel d s
      = ((match channel_data ops with
          | Some _ => - EINVAL | None => - ENOSYS end, d), s))
  /\ (check_channel (uc_pdata s) (to_int mask) CHECK_MASK <> 0 ->
      adc_start_channels regulators ops ext mask s
      = (match start_channels ops with
         | Some _ => - EINVAL | None => - ENOSYS end, s)
      /\ adc_channels_data ops mask channels s
         = ((match channels_data ops with
             | Some _ => - EINVAL | None => - ENOSYS end, channels), s)).
Proof.
  split; intros Hbad; apply check_channel_refused in Hbad; split.
  - rewrite adc_start_channel_eq. destruct (start_channel ops); [|reflexivity].
    cbv zeta. rewrite Hbad. reflexivity.
  - unfold adc_channel_data, mbind, M_bind, get_pdata.
    destruct (channel_data ops); [|reflexivity]. rewrite Hbad. reflexivity.
  - rewrite adc_start_channels_eq. destruct (start_channels ops); [|reflexivity].
    cbv zeta. rewrite Hbad. reflexivity.
  - unfold adc_channels_data, mbind, M_bind, get_pdata.
    destruct (channels_data ops); [|reflexivity]. rewrite Hbad. reflexivity.
Qed.

Lemma adc_supply_enable_both_ok s vdd vss w1 w2 :
  vdd_supply (uc_pdata s) = Some vdd ->
  vss_supply (uc_pdata s) = Some vss ->
  regulator_set_enable ext vdd true (world s) = (0, w1) ->
  regulator_set_enable ext vss true w1 = (0, w2) ->
  adc_supply_enable true ext s =
    (0, mk_machine w2 (uc_pdata s)
          (trace s ++ [EvRegulatorSetEnable vdd true; EvRegulatorSetEnable vss true])).
Proof.
  intros Hvdd Hvss H1 H2.
  unfold adc_supply_enable. unfold_monad.
  rewrite Hvdd, H1. cbn. rewrite Hvss. cbn. rewrite H2. cbn.
  rewrite <- app_assoc. reflexivity.
Qed.

(** X2: With both supplies configured and both enabled without error,
    [adc_start_channels] on a valid mask makes three calls, in this
    order: VDD on, VSS on, the driver's multi-channel start; the result
    is the driver's. *)
Theorem adc_start_channels_enables_then_starts f (mask : Z) s vdd vss w1 w2 :
  start_channels ops = Some f ->
  check_channel (uc_pdata s) (to_int mask) CHECK_MASK = 0 ->
  vdd_supply (uc_pdata s) = Some vdd ->
  vss_supply (uc_pdata s) = Some vss ->
  regulator_set_enable ext vdd true (world s) = (0, w1) ->
  regulator_set_enable ext vss true w1 = (0, w2) ->
  adc_start_channels true ops ext mask s =
    ((f mask w2).1,
     mk_machine (f mask w2).2 (uc_pdata s)
       (trace s ++ [EvRegulatorSetEnable vdd true;
                    EvRegulatorSetEnable vss true;
                    EvStartChannels mask])).
Proof.
  intros Hf Hok Hvdd Hvss H1 H2.
  unfold adc_start_channels. rewrite Hf. unfold mbind at 1, M_bind at 1, get_pdata.
  cbv beta iota zeta. rewrite Hok. change (negb (0 =? 0)) with false. cbv iota.
  unfold mbind, M_bind.
  rewrite (adc_supply_enable_both_ok s vdd vss w1 w2) by assumption.
  change (negb (0 =? 0)) with false. cbv iota.
  unfold call. cbn [world uc_pdata trace].
  destruct (f mask w2) as [r w3]. cbn [fst snd].
  rewrite <- app_assoc. reflexivity.
Qed.

(** X3: When VDD is enabled and enabling VSS then fails, [adc_start_channel]
    returns the VSS error and the driver is not called; VDD has been
    switched on and is left on. *)
Theorem adc_start_channel_vss_enable_fails f (channel : Z) s vdd vss w1 err w2 :
  start_channel ops = Some f ->
  check_channel (uc_pdata s) channel CHECK_NUMBER = 0 ->
  vdd_supply (uc_pdata s) = Some vdd ->
  vss_supply (uc_pdata s) = Some vss ->
  regulator_set_enable ext vdd true (world s) = (0, w1) ->
  regulator_set_enable ext vss true w1 = (err, w2) ->
  err <> 0 ->
  adc_start_channel true ops ext channel s =
    (err,
     mk_machine w2 (uc_pdata s)
       (trace s ++ [EvRegulatorSetEnable vdd true;
                    EvRegulatorSetEnable vss true])).
Proof.
  intros Hf Hok Hvdd Hvss H1 H2 Herr.
  rewrite adc_start_channel_eq, Hf. cbv zeta. rewrite Hok.
  change (negb (0 =? 0)) with false. cbv iota.
  unfold adc_supply_enable. unfold_monad.
  rewrite Hvdd, H1. cbn. rewrite Hvss. cbn. rewrite H2. cbn.
  destruct (Z.eqb_spec err 0); [contradiction|]. cbn.
  rewrite <- app_assoc. reflexivity.
Qed.

(** X4: When regulators are compiled out, or when the device has no supply,
    [adc_start_channel] on a valid channel makes one call, the driver's
    start, and returns its result. *)
Theorem adc_start_channel_without_supplies f (channel : Z) s :
  start_channel ops = Some f ->
  check_channel (uc_pdata s) channel CHECK_NUMBER = 0 ->
  regulators = false
  \/ vdd_supply (uc_pdata s) = None /\ vss_supply (uc_pdata s) = None ->
  adc_start_channel regulators ops ext channel s =
    ((f channel (world s)).1,
     mk_machine (f channel (world s)).2 (uc_pdata s)
       (trace s ++ [EvStartChannel channel])).
Proof.
  intros Hf Hok Hno.
  rewrite adc_start_channel_eq, Hf. cbv zeta. rewrite Hok.
  change (negb (0 =? 0)) with false. cbv iota.
  assert (Hsup : adc_supply_enable regulators ext s = (0, s)).
  { unfold adc_supply_enable. destruct Hno as [->|[Hvdd Hvss]]; [reflexivity|].
    destruct regulators; [|reflexivity].
    unfold_monad. rewrite Hvdd, Hvss. reflexivity. }
  rewrite Hsup. change (negb (0 =? 0)) with false. cbv iota.
  unfold call. destruct (f channel (world s)) as [r w]. reflexivity.
Qed.

Lemma driver_calls_busy_rounds channel n :
  driver_calls (busy_rounds channel n) = replicate n (EvChannelData channel).
Proof.
  induction n as [|n IH]; [reflexivity|].
  rewrite busy_rounds_S, driver_calls_app, IH. reflexivity.
Qed.

Lemma replicate_snoc {A} (x : A) n : replicate n x ++ [x] = replicate (S n) x.
Proof. induction n as [|n IH]; simpl; [reflexivity|]. rewrite IH. reflexivity. Qed.

(** X5: Whatever the driver answers, [adc_channel_data] on a valid channel
    reads at least once and at most [data_timeout_us + 1] times, calls
    nothing of the driver but the read of this channel, leaves the
    platdata alone, and returns [-EBUSY] only when the whole budget is
    spent. *)
Theorem adc_channel_data_read_bounds f (channel d : Z) s :
  channel_data ops = Some f ->
  check_channel (uc_pdata s) channel CHECK_NUMBER = 0 ->
  0 <= data_timeout_us (uc_pdata s) ->
  let '((ret, _), s') := adc_channel_data ops channel d s in
  uc_pdata s' = uc_pdata s
  /\ exists t,
       trace s' = trace s ++ t
       /\ driver_calls t = replicate (channel_data_calls t) (EvChannelData channel)
       /\ (1 <= channel_data_calls t)%nat
       /\ Z.of_nat (channel_data_calls t) <= data_timeout_us (uc_pdata s) + 1
       /\ (ret = - EBUSY ->
           Z.of_nat (channel_data_calls t) = data_timeout_us (uc_pdata s) + 1).
Proof.
  intros Hf Hok HT.
  rewrite (adc_channel_data_valid ops f) by assumption.
  pose proof (channel_data_loop_shape f channel
                (Z.to_nat (data_timeout_us (uc_pdata s))) d s) as H.
  destruct (channel_data_loop f channel d _ s) as [[r d'] s'].
  destruct H as (Hpd & k & Hk & Hcase). split; [assumption|].
  destruct Hcase as [[Hne Ht] | (Hbusy & -> & Ht)].
  - exists (busy_rounds channel k ++ [EvChannelData channel]).
    split; [assumption|].
    rewrite channel_data_calls_app, channel_data_calls_busy_rounds.
    rewrite driver_calls_app, driver_calls_busy_rounds.
    change (channel_data_calls [EvChannelData channel]) with 1%nat.
    change (driver_calls [EvChannelData channel]) with [EvChannelData channel].
    rewrite replicate_snoc, Nat.add_1_r.
    split; [reflexivity|]. split; [lia|]. split; [lia|].
    intros ->. contradiction.
  - exists (busy_rounds channel (S (Z.to_nat (data_timeout_us (uc_pdata s))))).
    split; [assumption|].
    rewrite channel_data_calls_busy_rounds, driver_calls_busy_rounds.
    split; [reflexivity|]. split; [lia|]. split; [lia|]. intros _. lia.
Qed.

(** X8: A single shot that succeeds has followed the protocol: the registry
    look-up, the supplies, one start of this channel, then reads of this
    channel - busy ones, each with its delay, and the one that answered
    0 - within the budget.  The channel was valid. *)
Theorem adc_channel_single_shot_protocol (name : string) (channel d : Z) s :
  let '((ret, _), s') :=
    adc_channel_single_shot regulators ops ext name channel d s in
  ret = 0 ->
  check_channel (uc_pdata s) channel CHECK_NUMBER = 0
  /\ exists sup k,
       only_supplies sup
       /\ (k <= Z.to_nat (data_timeout_us (uc_pdata s)))%nat
       /\ trace s' = trace s ++ [EvGetDeviceByName name] ++ sup
                       ++ [EvStartChannel channel]
                       ++ busy_rounds channel k ++ [EvChannelData channel].
Proof.
  unfold adc_channel_single_shot. unfold mbind at 1, M_bind at 1, call at 1.
  destruct (uclass_get_device_by_name ext name (world s)) as [r0 w0].
  cbv beta iota zeta.
  destruct (Z.eqb_spec r0 0) as [->|Hr0]; cbn [negb]; cbv beta iota zeta;
    [|unfold mret, M_ret; intros ->; contradiction].
  unfold mbind at 1, M_bind at 1.
  set (s0 := mk_machine w0 (uc_pdata s) (trace s ++ [EvGetDeviceByName name])).
  pose proof (adc_start_channel_shape regulators ops ext channel s0) as Hstart.
  destruct (adc_start_channel regulators ops ext channel s0) as [r1 s1].
  destruct Hstart as (Hpd1 & sup & Hsup & Hcase). cbv beta iota zeta.
  destruct (Z.eqb_spec r1 0) as [->|Hr1]; cbn [negb]; cbv beta iota zeta;
    [|unfold mret, M_ret; intros ->; contradiction].
  destruct Hcase as [[_ Habs] | [Ht1 Hok]]; [contradiction|].
  unfold mbind, M_bind.
  unfold adc_channel_data at 1. unfold mbind, M_bind, get_pdata.
  destruct (channel_data ops) as [f|];
    [|cbn; unfold ENOSYS; intros H; discriminate H].
  rewrite Hpd1. change (uc_pdata s0) with (uc_pdata s) in *. rewrite Hok.
  change (negb (0 =? 0)) with false. cbv iota.
  pose proof (channel_data_loop_shape f channel
                (Z.to_nat (data_timeout_us (uc_pdata s))) d s1) as Hloop.
  destruct (channel_data_loop f channel d _ s1) as [[r2 d2] s2].
  destruct Hloop as (Hpd2 & k & Hk & Hcase). cbv beta iota zeta.
  destruct (Z.eqb_spec r2 0) as [->|Hr2]; cbn [negb]; cbv beta iota zeta;
    [|unfold mret, M_ret; intros ->; contradiction].
  unfold mret, M_ret. intros _. split; [reflexivity|]. exists sup, k.
  split; [assumption|]. split; [assumption|].
  destruct Hcase as [[_ Ht2] | (Habs & _)]; [|discriminate Habs].
  rewrite Ht2, Ht1. subst s0. cbn [trace]. rewrite <- !app_assoc. reflexivity.
Qed.

End Requests.

Lemma refused_request_untouched_witness :
  let s := Sim.start (Sim.pdata 10 (Some 1%nat) (Some 2%nat) false 0) in
  (adc_start_channel true (Sim.ops None) Sim.ext 2 s = (- EINVAL, s)
   /\ adc_channel_data (Sim.ops None) 2 0 s = ((- EINVAL, 0), s))
  /\ (adc_start_channels true Bench.multi_ops Sim.ext 5 s = (- EINVAL, s)
      /\ adc_channels_data Bench.multi_ops 5 [mk_adc_channel 0 0] s
         = ((- EINVAL, [mk_adc_channel 0 0]), s)).
Proof.
  split.
  - apply (proj1 (refused_request_untouched true (Sim.ops None) Sim.ext 2 5 0 []
                    (Sim.start (Sim.pdata 10 (Some 1%nat) (Some 2%nat) false 0)))).
    discriminate.
  - apply (proj2 (refused_request_untouched true Bench.multi_ops Sim.ext 2 5 0
                    [mk_adc_channel 0 0]
                    (Sim.start (Sim.pdata 10 (Some 1%nat) (Some 2%nat) false 0)))).
    discriminate.
Defined.

Lemma adc_start_channels_enables_then_starts_witness :
  adc_start_channels true Bench.multi_ops Sim.ext 10
    (Sim.start (Sim.pdata 10 (Some 1%nat) (Some 2%nat) false 0))
  = (0, mk_machine 2%nat (Sim.pdata 10 (Some 1%nat) (Some 2%nat) false 0)
          [EvRegulatorSetEnable 1%nat true; EvRegulatorSetEnable 2%nat true;
           EvStartChannels 10]).
Proof.
  apply (adc_start_channels_enables_then_starts Bench.multi_ops Sim.ext
           (fun mask w => (0, 2%nat)) 10
           (Sim.start (Sim.pdata 10 (Some 1%nat) (Some 2%nat) false 0))
           1%nat 2%nat O O); reflexivity.
Defined.

Lemma adc_start_channel_vss_enable_fails_witness :
  adc_start_channel true (Sim.ops None) Sim.ext 1
    (Sim.start (Sim.pdata 10 (Some 1%nat) (Some 7%nat) false 0))
  = (- Sim.EIO,
     mk_machine O (Sim.pdata 10 (Some 1%nat) (Some 7%nat) false 0)
       [EvRegulatorSetEnable 1%nat true; EvRegulatorSetEnable 7%nat true]).
Proof.
  apply (adc_start_channel_vss_enable_fails (Sim.ops None) Sim.ext
           (fun channel w => if bool_decide (None = Some channel)
                             then (- Sim.EIO, w) else (0, 2%nat))
           1 (Sim.start (Sim.pdata 10 (Some 1%nat) (Some 7%nat) false 0))
           1%nat 7%nat O (- Sim.EIO) O);
    first [reflexivity | discriminate].
Defined.

Lemma adc_start_channel_without_supplies_witness :
  adc_start_channel false (Sim.ops None) Sim.ext 3
    (Sim.start (Sim.pdata 10 (Some 7%nat) None false 0))
  = (0, mk_machine 2%nat (Sim.pdata 10 (Some 7%nat) None false 0)
          [EvStartChannel 3]).
Proof.
  exact (adc_start_channel_without_supplies false (Sim.ops None) Sim.ext
           (fun channel w => if bool_decide (None = Some channel)
                             then (- Sim.EIO, w) else (0, 2%nat))
           3 (Sim.start (Sim.pdata 10 (Some 7%nat) None false 0))
           eq_refl eq_refl (or_introl eq_refl)).
Defined.

Lemma adc_channel_data_read_bounds_witness :
  let s := mk_machine 2%nat (Sim.pdata 10 None None false 0) [] in
  let '((ret, _), s') := adc_channel_data (Sim.ops None) 1 0 s in
  uc_pdata s' = uc_pdata s
  /\ exists t,
       trace s' = trace s ++ t
       /\ driver_calls t = replicate (channel_data_calls t) (EvChannelData 1)
       /\ (1 <= channel_data_calls t)%nat
       /\ Z.of_nat (channel_data_calls t) <= data_timeout_us (uc_pdata s) + 1
       /\ (ret = - EBUSY ->
           Z.of_nat (channel_data_calls t) = data_timeout_us (uc_pdata s) + 1).
Proof.
  apply (adc_channel_data_read_bounds (Sim.ops None)
           (fun channel d w =>
              match w with
              | O => ((0, 100 + channel), O)
              | S w => ((- EBUSY, d), w)
              end) 1 0
           (mk_machine 2%nat (Sim.pdata 10 None None false 0) []));
    [reflexivity | reflexivity | simpl; lia].
Defined.

Lemma adc_channel_single_shot_protocol_witness :
  let s := Sim.start (Sim.pdata 10 (Some 1%nat) None false 0) in
  let '((ret, d), s') :=
    adc_channel_single_shot true (Sim.ops None) Sim.ext "saradc" 3 0 s in
  ret = 0 /\ d = 103
  /\ trace s' = [EvGetDeviceByName "saradc"; EvRegulatorSetEnable 1%nat true;
                 EvStartChannel 3; EvChannelData 3; EvSdelay 5;
                 EvChannelData 3; EvSdelay 5; EvChannelData 3]
  /\ check_channel (uc_pdata s) 3 CHECK_NUMBER = 0
  /\ exists sup k,
       only_supplies sup
       /\ (k <= Z.to_nat (data_timeout_us (uc_pdata s)))%nat
       /\ trace s' = trace s ++ [EvGetDeviceByName "saradc"] ++ sup
                       ++ [EvStartChannel 3]
                       ++ busy_rounds 3 k ++ [EvChannelData 3].
Proof.
  pose proof (adc_channel_single_shot_protocol true (Sim.ops None) Sim.ext
                "saradc" 3 0
                (Sim.start (Sim.pdata 10 (Some 1%nat) None false 0))) as H.
  cbv zeta.
  destruct (adc_channel_single_shot true (Sim.ops None) Sim.ext "saradc" 3 0
              (Sim.start (Sim.pdata 10 (Some 1%nat) None false 0)))
    as [[ret d] s'] eqn:E.
  vm_compute in E. injection E as <- <- <-.
  split; [reflexivity|]. split; [reflexivity|]. split; [reflexivity|].
  apply H. reflexivity.
Defined.

(** ** The multi-channel read *)

Section MultiPolling.

Context {W : Type}.
Variable ops : adc_ops W.

Implicit Types (s : machine W) (channels : list adc_channel)
  (f : Z -> list adc_channel -> W -> (Z * list adc_channel) * W).

Lemma channels_data_loop_step f mask channels n s :
  channels_data_loop f mask channels n s =
    let '((ret, channels'), w') := f mask channels (world s) in
    let s1 := mk_machine w' (uc_pdata s) (trace s ++ [EvChannelsData mask]) in
    if (ret =? 0) || negb (ret =? - EBUSY) then ((ret, channels'), s1) else
    let s2 := mk_machine w' (uc_pdata s) (trace s1 ++ [EvSdelay 5]) in
    match n with
    | O => ((ret, channels'), s2)
    | S n' => channels_data_loop f mask channels' n' s2
    end.
Proof.
  destruct n; simpl; unfold mbind, M_bind, call; simpl;
    destruct (f mask channels (world s)) as [[r c] w]; simpl;
    destruct ((r =? 0) || negb (r =? - EBUSY)); reflexivity.
Qed.

Lemma busy_multi_rounds_S mask n :
  busy_multi_rounds mask (S n)
  = [EvChannelsData mask; EvSdelay 5] ++ busy_multi_rounds mask n.
Proof. reflexivity. Qed.

Lemma channels_data_loop_busy f mask n :
  forall channels s,
    (forall i, (i <= n)%nat ->
       (nth_multi_read f mask i channels (world s)).1.1 = - EBUSY) ->
    channels_data_loop f mask channels n s =
      ((nth_multi_read f mask n channels (world s)).1,
       mk_machine (nth_multi_read f mask n channels (world s)).2 (uc_pdata s)
         (trace s ++ busy_multi_rounds mask (S n))).
Proof.
  induction n as [|n IH]; intros channels s Hbusy; rewrite channels_data_loop_step.
  - specialize (Hbusy O (le_n _)). simpl in *.
    destruct (f mask channels (world s)) as [[r c] w]. simpl in *.
    rewrite busy_test_false by assumption. simpl.
    rewrite <- app_assoc. subst r. reflexivity.
  - pose proof (Hbusy O (Nat.le_0_l _)) as H0. simpl in H0.
    assert (Hrest : forall i, (i <= n)%nat ->
              (nth_multi_read f mask (S i) channels (world s)).1.1 = - EBUSY)
      by (intros i Hi; apply Hbusy; lia).
    simpl nth_multi_read in *.
    destruct (f mask channels (world s)) as [[r c] w]. simpl in H0.
    rewrite busy_test_false by assumption. cbv zeta.
    rewrite IH by exact Hrest.
    rewrite (busy_multi_rounds_S mask (S n)). simpl. rewrite <- !app_assoc.
    reflexivity.
Qed.

Lemma channels_data_loop_answer f mask j :
  forall n channels s,
    (j <= n)%nat ->
    (forall i, (i < j)%nat ->
       (nth_multi_read f mask i channels (world s)).1.1 = - EBUSY) ->
    (nth_multi_read f mask j channels (world s)).1.1 <> - EBUSY ->
    channels_data_loop f mask channels n s =
      ((nth_multi_read f mask j channels (world s)).1,
       mk_machine (nth_multi_read f mask j channels (world s)).2 (uc_pdata s)
         (trace s ++ busy_multi_rounds mask j ++ [EvChannelsData mask])).
Proof.
  induction j as [|j IH]; intros n channels s Hle Hbusy Hans;
    rewrite channels_data_loop_step.
  - simpl in *. destruct (f mask channels (world s)) as [[r c] w]. simpl in *.
    rewrite busy_test_true by assumption. reflexivity.
  - destruct n as [|n]; [lia|].
    pose proof (Hbusy O (Nat.lt_0_succ _)) as H0. simpl in H0.
    assert (Hrest : forall i, (i < j)%nat ->
              (nth_multi_read f mask (S i) channels (world s)).1.1 = - EBUSY)
      by (intros i Hi; apply Hbusy; lia).
    simpl nth_multi_read in *.
    destruct (f mask channels (world s)) as [[r c] w]. simpl in H0.
    rewrite busy_test_false by assumption. cbv zeta.
    rewrite (IH n c) by (simpl; first [lia | assumption]).
    rewrite (busy_multi_rounds_S mask j). simpl. rewrite <- !app_assoc.
    reflexivity.
Qed.

Lemma adc_channels_data_valid f mask channels s :
  channels_data ops = Some f ->
  check_channel (uc_pdata s) (to_int mask) CHECK_MASK = 0 ->
  adc_channels_data ops mask channels s =
    channels_data_loop f mask channels
      (Z.to_nat (multidata_timeout_us (uc_pdata s))) s.
Proof.
  intros Hf Hok. unfold adc_channels_data, mbind, M_bind, get_pdata.
  rewrite Hf, Hok. reflexivity.
Qed.

(** X6: The multi-channel read polls under its own budget: when the driver
    answers [-EBUSY] at every invocation, [adc_channels_data] on a valid
    mask reads [multidata_timeout_us + 1] times, whatever
    [data_timeout_us] is, and returns [-EBUSY]. *)
Theorem adc_channels_data_always_busy f (mask T : Z) channels s :
  channels_data ops = Some f ->
  check_channel (uc_pdata s) (to_int mask) CHECK_MASK = 0 ->
  multidata_timeout_us (uc_pdata s) = T -> 0 <= T ->
  (forall c w, (f mask c w).1.1 = - EBUSY) ->
  let '((ret, _), s') := adc_channels_data ops mask channels s in
  ret = - EBUSY
  /\ trace s' = trace s ++ busy_multi_rounds mask (Z.to_nat (T + 1))
  /\ uc_pdata s' = uc_pdata s.
Proof.
  intros Hf Hok HT Hpos Hbusy.
  rewrite (adc_channels_data_valid f) by assumption.
  assert (Hall : forall i c w, (nth_multi_read f mask i c w).1.1 = - EBUSY).
  { induction i as [|i IH]; intros c w; simpl; [apply Hbusy|].
    destruct (f mask c w) as [[r c'] w']. apply IH. }
  rewrite channels_data_loop_busy by (intros; apply Hall).
  specialize (Hall (Z.to_nat (multidata_timeout_us (uc_pdata s))) channels (world s)).
  destruct (nth_multi_read f mask _ channels (world s)) as [[r c'] w']. simpl in *.
  rewrite HT in *.
  replace (Z.to_nat (T + 1)) with (S (Z.to_nat T)) by lia.
  repeat split. assumption.
Qed.

(** X7: When multi-channel read number [k] is the first that does not answer
    [-EBUSY] and [k <= multidata_timeout_us + 1], [adc_channels_data]
    makes exactly [k] reads and returns the result and the array of
    read [k]. *)
Theorem adc_channels_data_first_answer f (mask : Z) channels (k : nat) s :
  channels_data ops = Some f ->
  check_channel (uc_pdata s) (to_int mask) CHECK_MASK = 0 ->
  (1 <= k)%nat -> Z.of_nat k <= multidata_timeout_us (uc_pdata s) + 1 ->
  (forall i, (i < k - 1)%nat ->
     (nth_multi_read f mask i channels (world s)).1.1 = - EBUSY) ->
  (nth_multi_read f mask (k - 1) channels (world s)).1.1 <> - EBUSY ->
  let '(result, s') := adc_channels_data ops mask channels s in
  result = (nth_multi_read f mask (k - 1) channels (world s)).1
  /\ world s' = (nth_multi_read f mask (k - 1) channels (world s)).2
  /\ trace s' = trace s ++ busy_multi_rounds mask (k - 1) ++ [EvChannelsData mask].
Proof.
  intros Hf Hok Hk HkT Hbusy Hans.
  rewrite (adc_channels_data_valid f) by assumption.
  rewrite (channels_data_loop_answer f mask (k - 1)) by (first [lia | assumption]).
  simpl. repeat split.
Qed.

End MultiPolling.

Lemma adc_channels_data_always_busy_witness :
  let s := Sim.start
             (mk_platdata 4095 9 2 10 None None false false 0 (- ENODATA)) in
  let '((ret, _), s') :=
    adc_channels_data Bench.busy_multi_ops 10 [mk_adc_channel 0 0] s in
  ret = - EBUSY
  /\ trace s' = trace s ++ busy_multi_rounds 10 (Z.to_nat (2 + 1))
  /\ uc_pdata s' = uc_pdata s.
Proof.
  apply (adc_channels_data_always_busy Bench.busy_multi_ops
           (fun mask channels w => ((- EBUSY, channels), S w)) 10 2
           [mk_adc_channel 0 0]
           (Sim.start (mk_platdata 4095 9 2 10 None None false false 0 (- ENODATA))));
    [reflexivity | reflexivity | reflexivity | lia | intros; reflexivity].
Defined.

Lemma adc_channels_data_first_answer_witness :
  let s := mk_machine 2%nat (Sim.pdata 10 None None false 0) [] in
  let '(result, s') :=
    adc_channels_data Bench.multi_ops 10 [mk_adc_channel 1 0; mk_adc_channel 3 0] s in
  result = (0, [mk_adc_channel 1 7; mk_adc_channel 3 7])
  /\ world s' = O
  /\ trace s' = trace s ++ busy_multi_rounds 10 (3 - 1) ++ [EvChannelsData 10].
Proof.
  apply (adc_channels_data_first_answer Bench.multi_ops
           (fun mask channels w =>
              match w with
              | O => ((0, map (fun c => mk_adc_channel (id c) 7) channels), O)
              | S w => ((- EBUSY, channels), w)
              end) 10 [mk_adc_channel 1 0; mk_adc_channel 3 0] 3
           (mk_machine 2%nat (Sim.pdata 10 None None false 0) []));
    [reflexivity | reflexivity | lia | simpl; lia | | simpl; discriminate].
  intros [|[|i]] Hi; [reflexivity | reflexivity | simpl in Hi; lia].
Defined.

(** ** More on the fallback *)

Lemma check_channel_number_ok_bit (pd : adc_uclass_platdata) (c : Z) :
  0 <= c <= 31 ->
  check_channel pd c CHECK_NUMBER = 0 -> Z.testbit (channel_mask pd) c = true.
Proof.
  intros Hc. unfold check_channel, CHECK_NUMBER.
  rewrite mask_of_number, land_pow2 by lia.
  destruct (Z.testbit (channel_mask pd) c); [reflexivity|].
  rewrite andb_false_r. unfold EINVAL. discriminate.
Qed.

Lemma requested_channels_empty_mask (ADC_MAX_CHANNEL : Z) :
  requested_channels ADC_MAX_CHANNEL 0 = [].
Proof.
  unfold requested_channels.
  induction (seqZ 0 (ADC_MAX_CHANNEL + 1)) as [|c l IH]; [reflexivity|].
  rewrite filter_cons_False; [exact IH|].
  rewrite Z.bits_0. discriminate.
Qed.

Section FallbackMore.

Context {W : Type}.
Variable regulators : bool.
Variable ADC_MAX_CHANNEL : Z.
Variable ops : adc_ops W.
Variable ext : externals W.

Implicit Types (s : machine W) (channels readings : list adc_channel).

Lemma adc_channel_data_shape (channel d : Z) s :
  let '((ret, _), s') := adc_channel_data ops channel d s in
  uc_pdata s' = uc_pdata s
  /\ exists t,
       trace s' = trace s ++ t
       /\ started_channels t = []
       /\ (channel_data_calls t <= S (Z.to_nat (data_timeout_us (uc_pdata s))))%nat.
Proof.
  unfold adc_channel_data, mbind, M_bind, get_pdata.
  assert (Hnone : forall (r : Z),
            uc_pdata s = uc_pdata s
            /\ exists t, trace s = trace s ++ t /\ started_channels t = []
                 /\ (channel_data_calls t
                     <= S (Z.to_nat (data_timeout_us (uc_pdata s))))%nat).
  { intros _. split; [reflexivity|]. exists []. rewrite app_nil_r.
    split; [reflexivity|]. split; [reflexivity|]. unfold channel_data_calls.
    simpl. lia. }
  destruct (channel_data ops) as [f|]; [|apply (Hnone 0)].
  destruct (negb _); [apply (Hnone 0)|].
  pose proof (channel_data_loop_shape f channel
                (Z.to_nat (data_timeout_us (uc_pdata s))) d s) as H.
  destruct (channel_data_loop f channel d _ s) as [[r d'] s'].
  destruct H as (Hpd & k & Hk & Hcase). split; [assumption|].
  destruct Hcase as [[_ Ht] | (_ & -> & Ht)].
  - exists (busy_rounds channel k ++ [EvChannelData channel]).
    split; [assumption|].
    rewrite started_channels_app, started_channels_busy_rounds.
    rewrite channel_data_calls_app, channel_data_calls_busy_rounds.
    split; [reflexivity|].
    change (channel_data_calls [EvChannelData channel]) with 1%nat. lia.
  - exists (busy_rounds channel (S (Z.to_nat (data_timeout_us (uc_pdata s))))).
    split; [assumption|].
    rewrite started_channels_busy_rounds, channel_data_calls_busy_rounds.
    split; [reflexivity | lia].
Qed.

(** A cycle starts its channel at most once and nothing else; when it
    succeeds, it has started it and the channel was valid. *)
Lemma single_cycle_shape (channel d : Z) s :
  let '((ret, _), s') := single_cycle regulators ops ext channel d s in
  uc_pdata s' = uc_pdata s
  /\ exists t,
       trace s' = trace s ++ t
       /\ (started_channels t = [] /\ ret <> 0
           \/ started_channels t = [channel]
              /\ check_channel (uc_pdata s) channel CHECK_NUMBER = 0)
       /\ (channel_data_calls t <= S (Z.to_nat (data_timeout_us (uc_pdata s))))%nat.
Proof.
  rewrite single_cycle_eq.
  pose proof (adc_start_channel_shape regulators ops ext channel s) as Hstart.
  destruct (adc_start_channel regulators ops ext channel s) as [r s1].
  destruct Hstart as (Hpd1 & sup & Hsup & Hcase).
  destruct (Z.eqb_spec r 0) as [->|Hr]; cbn [negb]; cbv beta iota zeta.
  - destruct Hcase as [[_ Habs] | [Ht1 Hok]]; [contradiction|].
    pose proof (adc_channel_data_shape channel d s1) as Hread.
    destruct (adc_channel_data ops channel d s1) as [[r2 d2] s2].
    destruct Hread as (Hpd2 & t & Ht2 & Hnostart & Hcalls).
    split; [congruence|].
    exists ((sup ++ [EvStartChannel channel]) ++ t).
    split; [rewrite Ht2, Ht1, <- !app_assoc; reflexivity|].
    rewrite !started_channels_app, (only_supplies_started sup Hsup), Hnostart.
    rewrite !channel_data_calls_app, (only_supplies_reads sup Hsup).
    change (channel_data_calls [EvStartChannel channel]) with O.
    rewrite Hpd1 in Hcalls.
    split; [right; split; [reflexivity | assumption] | lia].
  - split; [assumption|].
    destruct Hcase as [[Ht1 _] | [Ht1 Hok]].
    + exists sup. split; [assumption|].
      rewrite (only_supplies_started sup Hsup), (only_supplies_reads sup Hsup).
      split; [left; split; [reflexivity | assumption] | lia].
    + exists (sup ++ [EvStartChannel channel]). split; [assumption|].
      rewrite started_channels_app, channel_data_calls_app,
        (only_supplies_started sup Hsup), (only_supplies_reads sup Hsup).
      change (channel_data_calls [EvStartChannel channel]) with O.
      split; [right; split; [reflexivity | assumption] | lia].
Qed.

Lemma cycles_shape s d cs ret readings s' :
  cycles regulators ops ext s d cs ret readings s' ->
  uc_pdata s' = uc_pdata s
  /\ exists t,
       trace s' = trace s ++ t
       /\ started_channels t `prefix_of` cs
       /\ (ret = 0 ->
           started_channels t = cs
           /\ Forall (fun c => check_channel (uc_pdata s) c CHECK_NUMBER = 0) cs)
       /\ (channel_data_calls t
           <= length cs * S (Z.to_nat (data_timeout_us (uc_pdata s))))%nat.
Proof.
  induction 1 as [s0 d0
                 |s0 d0 c cs0 ret0 d1 s1 Hc Hne
                 |s0 d0 c cs0 sample s1 ret0 readings0 s2 Hc Hrest IH].
  - split; [reflexivity|]. exists []. rewrite app_nil_r.
    split; [reflexivity|]. split; [reflexivity|].
    split; [intros _; split; [reflexivity | constructor]
          | unfold channel_data_calls; simpl; lia].
  - pose proof (single_cycle_shape c d0 s0) as Hshape. rewrite Hc in Hshape.
    destruct Hshape as (Hpd & t & Ht & Hcase & Hcalls).
    split; [assumption|]. exists t. split; [assumption|].
    split.
    { destruct Hcase as [[-> _] | [-> _]];
        [apply prefix_nil | apply prefix_cons, prefix_nil]. }
    split; [intros ->; contradiction | simpl; lia].
  - pose proof (single_cycle_shape c d0 s0) as Hshape. rewrite Hc in Hshape.
    destruct Hshape as (Hpd & t & Ht & Hcase & Hcalls).
    destruct IH as (Hpd' & t' & Ht' & Hpre & Hok & Hcalls').
    destruct Hcase as [[_ Habs] | [Hst Hvalid]]; [contradiction|].
    rewrite Hpd in *.
    split; [congruence|]. exists (t ++ t').
    split; [rewrite Ht', Ht, <- app_assoc; reflexivity|].
    rewrite started_channels_app, Hst, channel_data_calls_app.
    split; [apply prefix_cons; assumption|].
    split; [|simpl; lia].
    intros Hret. destruct (Hok Hret) as [-> Hall].
    split; [reflexivity | constructor; assumption].
Qed.

(** X9: The fallback starts channels of the request only, in ascending
    order and each at most once: the channels the driver was asked to
    start are a prefix of the requested ones, and all of them when the
    fallback succeeds.  The platdata is left alone. *)
Theorem fallback_starts_in_order (mask d : Z) channels s :
  let '((ret, _), s') :=
    _adc_channels_single_shot regulators ADC_MAX_CHANNEL ops ext mask d
      channels s in
  uc_pdata s' = uc_pdata s
  /\ exists t,
       trace s' = trace s ++ t
       /\ started_channels t `prefix_of` requested_channels ADC_MAX_CHANNEL mask
       /\ (ret = 0 ->
           started_channels t = requested_channels ADC_MAX_CHANNEL mask).
Proof.
  destruct (adc_channels_single_shot_cycles regulators ADC_MAX_CHANNEL ops ext
              mask d channels s) as (ret & readings & s' & Hcycles & ->).
  destruct (cycles_shape _ _ _ _ _ _ Hcycles) as (Hpd & t & Ht & Hpre & Hok & _).
  split; [assumption|]. exists t. split; [assumption|]. split; [assumption|].
  intros Hret. apply Hok. assumption.
Qed.

(** X10: The fallback reads at most [data_timeout_us + 1] times per requested
    channel. *)
Theorem fallback_read_budget (mask d : Z) channels s :
  0 <= data_timeout_us (uc_pdata s) ->
  let '(_, s') :=
    _adc_channels_single_shot regulators ADC_MAX_CHANNEL ops ext mask d
      channels s in
  exists t,
    trace s' = trace s ++ t
    /\ Z.of_nat (channel_data_calls t)
       <= Z.of_nat (length (requested_channels ADC_MAX_CHANNEL mask))
          * (data_timeout_us (uc_pdata s) + 1).
Proof.
  intros HT.
  destruct (adc_channels_single_shot_cycles regulators ADC_MAX_CHANNEL ops ext
              mask d channels s) as (ret & readings & s' & Hcycles & ->).
  destruct (cycles_shape _ _ _ _ _ _ Hcycles) as (_ & t & Ht & _ & _ & Hcalls).
  exists t. split; [assumption|]. nia.
Qed.

(** X11: The fallback validates channel by channel, so it succeeds only on a
    request inside the device's mask: every requested bit is a bit of
    [channel_mask].  (The mask test of [check_channel] asks less.) *)
Theorem fallback_success_needs_subset (mask d : Z) channels s :
  ADC_MAX_CHANNEL <= 31 ->
  0 <= mask < 2 ^ (ADC_MAX_CHANNEL + 1) ->
  let '((ret, _), _) :=
    _adc_channels_single_shot regulators ADC_MAX_CHANNEL ops ext mask d
      channels s in
  ret = 0 -> mask_is_subset mask (channel_mask (uc_pdata s)).
Proof.
  intros Hmax Hmask.
  destruct (adc_channels_single_shot_cycles regulators ADC_MAX_CHANNEL ops ext
              mask d channels s) as (ret & readings & s' & Hcycles & ->).
  destruct (cycles_shape _ _ _ _ _ _ Hcycles) as (_ & t & _ & _ & Hok & _).
  intros Hret. destruct (Hok Hret) as [_ Hall].
  unfold mask_is_subset. apply Z.bits_inj'. intros n Hn.
  rewrite Z.land_spec. destruct (Z.testbit mask n) eqn:Hbit; [|reflexivity].
  apply (requested_channels_bits ADC_MAX_CHANNEL) in Hbit; [|assumption].
  rewrite Forall_forall in Hall. pose proof (Hall n Hbit) as Hvalid.
  unfold requested_channels in Hbit.
  apply list_elem_of_filter in Hbit as [_ Hin]. apply elem_of_seqZ in Hin.
  rewrite (check_channel_number_ok_bit (uc_pdata s) n) by (first [lia | assumption]).
  reflexivity.
Qed.

(** X12: The empty request, which the validator refuses, passes through the
    fallback: on a driver without multi-channel start,
    [adc_channels_single_shot] on the mask 0 returns 0 after the
    registry look-up, with no call of the driver and the array as it
    was; on a driver with it, the same call returns [-EINVAL]. *)
Theorem adc_channels_single_shot_empty_mask (name : string) (d : Z) channels s w :
  uclass_get_device_by_name ext name (world s) = (0, w) ->
  adc_channels_single_shot regulators ADC_MAX_CHANNEL ops ext name 0 d
    channels s
  = ((match start_channels ops with
      | Some _ => - EINVAL
      | None => 0
      end, channels),
     mk_machine w (uc_pdata s) (trace s ++ [EvGetDeviceByName name])).
Proof.
  intros Hdev.
  destruct (start_channels ops) as [f|] eqn:Hf.
  - unfold adc_channels_single_shot, mbind, M_bind, call. rewrite Hdev.
    cbv beta iota zeta. change (negb (0 =? 0)) with false. cbv beta iota.
    rewrite adc_start_channels_eq, Hf. cbv zeta.
    rewrite check_channel_empty_mask. reflexivity.
  - rewrite (adc_channels_single_shot_fallback regulators ADC_MAX_CHANNEL ops ext
               name 0 d channels s w Hf Hdev).
    destruct (adc_channels_single_shot_cycles regulators ADC_MAX_CHANNEL ops ext
                0 d channels
                (mk_machine w (uc_pdata s) (trace s ++ [EvGetDeviceByName name])))
      as (ret & readings & s' & Hcycles & ->).
    rewrite requested_channels_empty_mask in Hcycles.
    inversion Hcycles; subst. reflexivity.
Qed.

End FallbackMore.

Lemma fallback_starts_in_order_witness :
  let s := Sim.start (Sim.pdata 10 None None false 0) in
  let '((ret, _), s') :=
    _adc_channels_single_shot true 31 (Sim.ops (Some 1)) Sim.ext 10 0
      [mk_adc_channel 0 0; mk_adc_channel 0 0] s in
  started_channels (trace s') = [1]
  /\ uc_pdata s' = uc_pdata s
  /\ exists t,
       trace s' = trace s ++ t
       /\ started_channels t `prefix_of` requested_channels 31 10
       /\ (ret = 0 -> started_channels t = requested_channels 31 10).
Proof.
  pose proof (fallback_starts_in_order true 31 (Sim.ops (Some 1)) Sim.ext 10 0
                [mk_adc_channel 0 0; mk_adc_channel 0 0]
                (Sim.start (Sim.pdata 10 None None false 0))) as H.
  cbv zeta.
  destruct (_adc_channels_single_shot true 31 (Sim.ops (Some 1)) Sim.ext 10 0
              [mk_adc_channel 0 0; mk_adc_channel 0 0]
              (Sim.start (Sim.pdata 10 None None false 0)))
    as [[ret channels'] s'] eqn:E.
  split; [|exact H].
  vm_compute in E. injection E as <- <- <-. reflexivity.
Defined.

Lemma fallback_read_budget_witness :
  let s := Sim.start (Sim.pdata 10 None None false 0) in
  let '(_, s') :=
    _adc_channels_single_shot true 31 (Sim.ops None) Sim.ext 10 0
      [mk_adc_channel 0 0; mk_adc_channel 0 0] s in
  channel_data_calls (trace s') = 6%nat
  /\ exists t,
       trace s' = trace s ++ t
       /\ Z.of_nat (channel_data_calls t)
          <= Z.of_nat (length (requested_channels 31 10))
             * (data_timeout_us (uc_pdata s) + 1).
Proof.
  pose proof (fallback_read_budget true 31 (Sim.ops None) Sim.ext 10 0
                [mk_adc_channel 0 0; mk_adc_channel 0 0]
                (Sim.start (Sim.pdata 10 None None false 0))) as H.
  cbv zeta.
  destruct (_adc_channels_single_shot true 31 (Sim.ops None) Sim.ext 10 0
              [mk_adc_channel 0 0; mk_adc_channel 0 0]
              (Sim.start (Sim.pdata 10 None None false 0)))
    as [r s'] eqn:E.
  split; [|apply H; simpl; lia].
  vm_compute in E. injection E as <- <-. reflexivity.
Defined.

Lemma fallback_success_needs_subset_witness :
  let s := Sim.start (Sim.pdata 10 None None false 0) in
  (_adc_channels_single_shot true 31 (Sim.ops None) Sim.ext 10 0
     [mk_adc_channel 0 0; mk_adc_channel 0 0] s).1.1 = 0
  /\ mask_is_subset 10 (channel_mask (uc_pdata s))
  /\ (_adc_channels_single_shot true 31 (Sim.ops None) Sim.ext 6 0
        [mk_adc_channel 0 0; mk_adc_channel 0 0] s).1.1 = - EINVAL.
Proof.
  pose proof (fallback_success_needs_subset true 31 (Sim.ops None) Sim.ext 10 0
                [mk_adc_channel 0 0; mk_adc_channel 0 0]
                (Sim.start (Sim.pdata 10 None None false 0))) as H.
  cbv zeta.
  destruct (_adc_channels_single_shot true 31 (Sim.ops None) Sim.ext 10 0
              [mk_adc_channel 0 0; mk_adc_channel 0 0]
              (Sim.start (Sim.pdata 10 None None false 0)))
    as [[ret channels'] s'] eqn:E.
  vm_compute in E. injection E as <- <- <-.
  split; [reflexivity|]. split; [|reflexivity].
  apply H; [lia | split; [lia | reflexivity] | reflexivity].
Defined.

Lemma adc_channels_single_shot_empty_mask_witness :
  adc_channels_single_shot true 31 (Sim.ops None) Sim.ext "saradc" 0 0
    [mk_adc_channel 0 0] (Sim.start (Sim.pdata 10 None None false 0))
  = ((0, [mk_adc_channel 0 0]),
     mk_machine O (Sim.pdata 10 None None false 0) [EvGetDeviceByName "saradc"])
  /\ adc_channels_single_shot true 31 Bench.multi_ops Sim.ext "saradc" 0 0
       [mk_adc_channel 0 0] (Sim.start (Sim.pdata 10 None None false 0))
     = ((- EINVAL, [mk_adc_channel 0 0]),
        mk_machine O (Sim.pdata 10 None None false 0) [EvGetDeviceByName "saradc"]).
Proof.
  split.
  - exact (adc_channels_single_shot_empty_mask true 31 (Sim.ops None) Sim.ext
             "saradc" 0 [mk_adc_channel 0 0]
             (Sim.start (Sim.pdata 10 None None false 0)) O eq_refl).
  - exact (adc_channels_single_shot_empty_mask true 31 Bench.multi_ops Sim.ext
             "saradc" 0 [mk_adc_channel 0 0]
             (Sim.start (Sim.pdata 10 None None false 0)) O eq_refl).
Defined.

(** ** More on the reference voltages *)

Section VoltageMore.

Context {W : Type}.
Variable ext : externals W.

Implicit Types (s : machine W).

Lemma same_outside_vdd_set (p : adc_uclass_platdata) sup v :
  same_outside_vdd p (set_vdd_microvolts v (set_vdd_supply sup p))
  /\ same_outside_vdd p (set_vdd_supply sup p)
  /\ same_outside_vdd p p.
Proof. unfold same_outside_vdd. destruct p. repeat split. Qed.

Lemma adc_vdd_platdata_update_shape (regulators : bool) s :
  let '(ret, s') := adc_vdd_platdata_update regulators ext s in
  same_outside_vdd (uc_pdata s) (uc_pdata s')
  /\ (exists t, trace s' = trace s ++ t /\ driver_calls t = [])
  /\ (ret <> 0 -> vdd_microvolts (uc_pdata s') = vdd_microvolts (uc_pdata s))
  /\ (ret = 0 ->
      0 <= vdd_microvolts (uc_pdata s')
      \/ vdd_microvolts (uc_pdata s') = vdd_microvolts (uc_pdata s)).
Proof.
  assert (Hframe : forall sup v,
            same_outside_vdd (uc_pdata s)
              (set_vdd_microvolts v (set_vdd_supply sup (uc_pdata s)))
            /\ same_outside_vdd (uc_pdata s) (set_vdd_supply sup (uc_pdata s)))
    by (intros sup v; split; apply same_outside_vdd_set; assumption).
  unfold adc_vdd_platdata_update. destruct regulators.
  - unfold_monad. cbv beta iota zeta.
    destruct (device_get_supply_regulator ext "vdd-supply"
                (vdd_supply (uc_pdata s)) (world s)) as [[r0 sup] w1].
    cbv beta iota zeta. cbn [fst snd world uc_pdata trace].
    destruct (Z.eqb_spec r0 0) as [->|Hr0]; cbn [negb]; cbv beta iota zeta.
    + cbn [fst snd world uc_pdata trace].
      destruct (regulator_get_value ext sup w1) as [v w2].
      cbv beta iota zeta. cbn [fst snd world uc_pdata trace].
      destruct (Z.ltb_spec v 0) as [Hneg|Hpos];
        cbv beta iota zeta; cbn [fst snd world uc_pdata trace].
      * split; [apply (Hframe sup 0)|].
        split; [eexists; split; [rewrite <- app_assoc; reflexivity | reflexivity]|].
        split; [reflexivity | intros ->; lia].
      * split; [apply (Hframe sup v)|].
        split; [eexists; split; [rewrite <- app_assoc; reflexivity | reflexivity]|].
        split; [intros H; contradiction | intros _; left; exact Hpos].
    + cbn [fst snd world uc_pdata trace].
      split; [apply (Hframe sup 0)|].
      split; [eexists; split; reflexivity|].
      split; [reflexivity | intros ->; contradiction].
  - unfold mret, M_ret. split; [apply same_outside_vdd_set; first [exact 0 | exact None]|].
    split; [exists []; rewrite app_nil_r; split; reflexivity|].
    split; [reflexivity | intros _; right; reflexivity].
Qed.

(** X13: Whatever the configuration and whatever the regulator answers,
    [adc_vdd_value] either fails and leaves [*uV] and the cached voltage
    as they were, or succeeds and stores the cached voltage - which is
    then not the no-data sentinel - with the sign of the polarity.  It
    changes nothing of the platdata but the VDD supply and its cached
    voltage, and never calls the driver. *)
Theorem adc_vdd_value_outcome (regulators : bool) (uV : Z) s :
  let '((ret, uV'), s') := adc_vdd_value regulators ext uV s in
  (ret <> 0 ->
   uV' = uV /\ vdd_microvolts (uc_pdata s') = vdd_microvolts (uc_pdata s))
  /\ (ret = 0 ->
      vdd_microvolts (uc_pdata s') <> - ENODATA
      /\ uV' = mul_int (vdd_microvolts (uc_pdata s'))
                 (if vdd_polarity_negative (uc_pdata s) then -1 else 1))
  /\ same_outside_vdd (uc_pdata s) (uc_pdata s')
  /\ exists t, trace s' = trace s ++ t /\ driver_calls t = [].
Proof.
  unfold adc_vdd_value. unfold mbind at 1, M_bind at 1, get_pdata at 1.
  cbv beta iota zeta. unfold mbind at 1, M_bind at 1.
  assert (Hupd :
    let '(ret, s1) :=
      match vdd_supply (uc_pdata s) with
      | Some _ => adc_vdd_platdata_update regulators ext
      | None => mret 0
      end s in
    same_outside_vdd (uc_pdata s) (uc_pdata s1)
    /\ (exists t, trace s1 = trace s ++ t /\ driver_calls t = [])
    /\ (ret <> 0 -> vdd_microvolts (uc_pdata s1) = vdd_microvolts (uc_pdata s))
    /\ (ret = 0 ->
        0 <= vdd_microvolts (uc_pdata s1)
        \/ vdd_microvolts (uc_pdata s1) = vdd_microvolts (uc_pdata s))).
  { destruct (vdd_supply (uc_pdata s)).
    - exact (adc_vdd_platdata_update_shape regulators s).
    - unfold mret, M_ret. split; [apply same_outside_vdd_set; first [exact 0 | exact None]|].
      split; [exists []; rewrite app_nil_r; split; reflexivity|].
      split; [intros H; contradiction | intros _; right; reflexivity]. }
  destruct (match vdd_supply (uc_pdata s) with
            | Some _ => adc_vdd_platdata_update regulators ext
            | None => mret 0
            end s) as [r s1].
  destruct Hupd as (Hframe & Htrace & Hkeep & Hnew).
  destruct (Z.eqb_spec r 0) as [->|Hr]; cbn [negb]; cbv beta iota zeta.
  - unfold_monad.
    destruct (Z.eqb_spec (vdd_microvolts (uc_pdata s1)) (- ENODATA)) as [Hs|Hs].
    + split; [|split; [intros H; discriminate H | auto]].
      intros _. split; [reflexivity|].
      destruct (Hnew eq_refl) as [Hpos|Hsame]; [|assumption].
      rewrite Hs in Hpos. unfold ENODATA in Hpos. lia.
    + split; [intros H; contradiction|]. split; [|auto].
      intros _. split; [assumption | reflexivity].
  - unfold mret, M_ret. split; [|split; [intros ->; contradiction | auto]].
    intros _. split; [reflexivity | apply Hkeep; assumption].
Qed.

(** X14: With regulators compiled out [adc_vdd_value] asks no regulator,
    whether a VDD supply is set or not: it answers from the cached
    voltage alone. *)
Theorem adc_vdd_value_regulators_off (uV : Z) s :
  - INT_MAX <= vdd_microvolts (uc_pdata s) <= INT_MAX ->
  adc_vdd_value false ext uV s =
    if vdd_microvolts (uc_pdata s) =? - ENODATA
    then ((- ENODATA, uV), s)
    else ((0, vdd_microvolts (uc_pdata s)
              * (if vdd_polarity_negative (uc_pdata s) then -1 else 1)), s).
Proof.
  intros Hv. unfold adc_vdd_value, adc_vdd_platdata_update. unfold_monad.
  destruct (vdd_supply (uc_pdata s)); cbn;
    (destruct (vdd_microvolts (uc_pdata s) =? - ENODATA); [reflexivity|]);
    rewrite mul_int_sign by assumption; reflexivity.
Qed.

(** X15: A query that fails is passed on and caches nothing: when the
    look-up of the supply fails, its error is returned and the regulator
    is not asked; when the regulator answers a negative number, that
    number is returned.  In both cases [*uV] and the cached voltage stay
    as they were; the supply pointer is what the look-up wrote. *)
Theorem adc_vdd_value_query_fails (uV : Z) s vdd err supply w1 :
  vdd_supply (uc_pdata s) = Some vdd ->
  device_get_supply_regulator ext "vdd-supply" (Some vdd) (world s)
    = ((err, supply), w1) ->
  (err <> 0 ->
   adc_vdd_value true ext uV s =
     ((err, uV),
      mk_machine w1 (set_vdd_supply supply (uc_pdata s))
        (trace s ++ [EvGetSupplyRegulator "vdd-supply"])))
  /\ (err = 0 -> (regulator_get_value ext supply w1).1 < 0 ->
      adc_vdd_value true ext uV s =
        (((regulator_get_value ext supply w1).1, uV),
         mk_machine (regulator_get_value ext supply w1).2
           (set_vdd_supply supply (uc_pdata s))
           (trace s ++ [EvGetSupplyRegulator "vdd-supply";
                        EvRegulatorGetValue supply]))).
Proof.
  intros Hvdd Hget. split.
  - intros Herr.
    unfold adc_vdd_value, adc_vdd_platdata_update. unfold_monad.
    simpl. rewrite !Hvdd. simpl. rewrite Hget. simpl.
    repeat (rewrite (proj2 (Z.eqb_neq err 0) Herr); simpl). reflexivity.
  - intros -> Hneg.
    unfold adc_vdd_value, adc_vdd_platdata_update. unfold_monad.
    simpl. rewrite !Hvdd. simpl. rewrite Hget. simpl.
    destruct (regulator_get_value ext supply w1) as [v w2]. simpl in *.
    rewrite (proj2 (Z.ltb_lt v 0) Hneg). simpl.
    assert (Hv0 : v <> 0) by lia.
    repeat (rewrite (proj2 (Z.eqb_neq v 0) Hv0); simpl).
    rewrite <- app_assoc. reflexivity.
Qed.

(** X16: The VSS rail is resolved like the VDD rail, from the VSS fields:
    with no VSS supply, from the cached [vss_microvolts]. *)
Theorem adc_vss_value_no_supply (regulators : bool) (uV : Z) s :
  vss_supply (uc_pdata s) = None ->
  - INT_MAX <= vss_microvolts (uc_pdata s) <= INT_MAX ->
  adc_vss_value regulators ext uV s =
    if vss_microvolts (uc_pdata s) =? - ENODATA
    then ((- ENODATA, uV), s)
    else ((0, vss_microvolts (uc_pdata s)
              * (if vss_polarity_negative (uc_pdata s) then -1 else 1)), s).
Proof.
  intros Hnone Hv.
  unfold adc_vss_value, mbind, M_bind, get_pdata. rewrite Hnone. simpl.
  destruct (vss_microvolts (uc_pdata s) =? - ENODATA); [reflexivity|].
  unfold mret, M_ret. rewrite mul_int_sign by assumption. reflexivity.
Qed.

(** X17: With a VSS supply that is found and reports [v >= 0], [adc_vss_value]
    looks "vss-supply" up, reads the regulator, caches [v] in
    [vss_microvolts] and stores [v] with the sign of the VSS polarity;
    the VDD fields are not touched. *)
Theorem adc_vss_value_live_ok (uV : Z) s vss supply w1 v w2 :
  vss_supply (uc_pdata s) = Some vss ->
  device_get_supply_regulator ext "vss-supply" (Some vss) (world s)
    = ((0, supply), w1) ->
  regulator_get_value ext supply w1 = (v, w2) ->
  0 <= v <= INT_MAX ->
  adc_vss_value true ext uV s =
    ((0, v * (if vss_polarity_negative (uc_pdata s) then -1 else 1)),
     mk_machine w2
       (set_vss_microvolts v (set_vss_supply supply (uc_pdata s)))
       (trace s ++ [EvGetSupplyRegulator "vss-supply"; EvRegulatorGetValue supply])).
Proof.
  intros Hvss Hget Hval Hv.
  unfold adc_vss_value, adc_vss_platdata_update. unfold_monad.
  simpl. rewrite !Hvss. simpl. rewrite Hget. simpl. rewrite Hval. simpl.
  destruct (Z.ltb_spec v 0); [lia|]. simpl.
  destruct (Z.eqb_spec v (- ENODATA)); [unfold ENODATA in *; lia|].
  rewrite mul_int_sign by (unfold INT_MAX in *; lia).
  rewrite <- app_assoc. reflexivity.
Qed.

End VoltageMore.

Lemma adc_vdd_value_outcome_witness :
  let s := Sim.start (Sim.pdata 10 (Some 1%nat) None true (- ENODATA)) in
  let '((ret, uV'), s') := adc_vdd_value true Sim.ext 0 s in
  (ret = 0 /\ uV' = -3300 /\ vdd_microvolts (uc_pdata s') = 3300)
  /\ (ret <> 0 ->
      uV' = 0 /\ vdd_microvolts (uc_pdata s') = vdd_microvolts (uc_pdata s))
  /\ (ret = 0 ->
      vdd_microvolts (uc_pdata s') <> - ENODATA
      /\ uV' = mul_int (vdd_microvolts (uc_pdata s'))
                 (if vdd_polarity_negative (uc_pdata s) then -1 else 1))
  /\ same_outside_vdd (uc_pdata s) (uc_pdata s')
  /\ exists t, trace s' = trace s ++ t /\ driver_calls t = [].
Proof.
  pose proof (adc_vdd_value_outcome Sim.ext true 0
                (Sim.start (Sim.pdata 10 (Some 1%nat) None true (- ENODATA)))) as H.
  cbv zeta.
  destruct (adc_vdd_value true Sim.ext 0
              (Sim.start (Sim.pdata 10 (Some 1%nat) None true (- ENODATA))))
    as [[ret uV'] s'] eqn:E.
  split; [|exact H].
  vm_compute in E. injection E as <- <- <-. repeat split.
Defined.

Lemma adc_vdd_value_regulators_off_witness :
  adc_vdd_value false Sim.ext 0
    (Sim.start (Sim.pdata 10 (Some 1%nat) None true 1800))
  = ((0, -1800), Sim.start (Sim.pdata 10 (Some 1%nat) None true 1800)).
Proof.
  apply (adc_vdd_value_regulators_off Sim.ext 0
           (Sim.start (Sim.pdata 10 (Some 1%nat) None true 1800))).
  vm_compute. split; discriminate.
Defined.

Lemma adc_vdd_value_query_fails_witness :
  adc_vdd_value true Bench.no_phandle_ext 9
    (Sim.start (Sim.pdata 10 (Some 1%nat) None false 1800))
  = ((- ENOENT, 9),
     mk_machine O (Sim.pdata 10 None None false 1800)
       [EvGetSupplyRegulator "vdd-supply"])
  /\ adc_vdd_value true Bench.unreadable_ext 9
       (Sim.start (Sim.pdata 10 (Some 1%nat) None false 1800))
     = ((- Sim.EIO, 9),
        mk_machine O (Sim.pdata 10 (Some 1%nat) None false 1800)
          [EvGetSupplyRegulator "vdd-supply"; EvRegulatorGetValue (Some 1%nat)]).
Proof.
  split.
  - apply (proj1 (adc_vdd_value_query_fails Bench.no_phandle_ext 9
                    (Sim.start (Sim.pdata 10 (Some 1%nat) None false 1800))
                    1%nat (- ENOENT) None O eq_refl eq_refl)).
    discriminate.
  - apply (proj2 (adc_vdd_value_query_fails Bench.unreadable_ext 9
                    (Sim.start (Sim.pdata 10 (Some 1%nat) None false 1800))
                    1%nat 0 (Some 1%nat) O eq_refl eq_refl));
      reflexivity.
Defined.

Lemma adc_vss_value_no_supply_witness :
  adc_vss_value true Sim.ext 0
    (Sim.start (mk_platdata 4095 3 3 10 None None false true 0 900))
  = ((0, -900), Sim.start (mk_platdata 4095 3 3 10 None None false true 0 900))
  /\ adc_vss_value true Sim.ext 0 (Sim.start (Sim.pdata 10 None None false 0))
     = ((- ENODATA, 0), Sim.start (Sim.pdata 10 None None false 0)).
Proof.
  split.
  - apply (adc_vss_value_no_supply Sim.ext true 0
             (Sim.start (mk_platdata 4095 3 3 10 None None false true 0 900)));
      [reflexivity | vm_compute; split; discriminate].
  - apply (adc_vss_value_no_supply Sim.ext true 0
             (Sim.start (Sim.pdata 10 None None false 0)));
      [reflexivity | vm_compute; split; discriminate].
Defined.

Lemma adc_vss_value_live_ok_witness :
  adc_vss_value true Sim.ext 0
    (Sim.start (Sim.pdata 10 None (Some 2%nat) false 1800))
  = ((0, 3300),
     mk_machine O
       (mk_platdata 4095 3 3 10 None (Some 2%nat) false false 1800 3300)
       [EvGetSupplyRegulator "vss-supply"; EvRegulatorGetValue (Some 2%nat)]).
Proof.
  apply (adc_vss_value_live_ok Sim.ext 0
           (Sim.start (Sim.pdata 10 None (Some 2%nat) false 1800))
           2%nat (Some 2%nat) O 3300 O);
    [reflexivity | reflexivity | reflexivity | vm_compute; split; discriminate].
Defined.

(** ** Probe-time setup *)

(** Runs the code past a look-up that answered [-ENOENT]. *)
Ltac no_phandle_step :=
  repeat first
    [ progress change (negb (- ENOENT =? 0)) with true
    | progress change (negb (- ENOENT =? - ENOENT)) with false
    | progress cbn ].

Section ProbeTheory.

Context {W : Type}.
Variable ext : externals W.
Variable dt : devtree W.

Implicit Types (s : machine W).

(** X18: With regulators compiled out, the probe reads the two polarity
    flags and nothing else: "vdd-microvolts" and "vss-microvolts" are not
    consulted, the cached voltages stay as they were, nothing is
    called. *)
Theorem adc_pre_probe_regulators_off s :
  adc_pre_probe false ext dt s =
    (0, mk_machine (world s)
          (set_vss_polarity_negative
             (dev_read_bool dt "vss-polarity-negative" (world s))
             (set_vdd_polarity_negative
                (dev_read_bool dt "vdd-polarity-negative" (world s))
                (uc_pdata s)))
          (trace s)).
Proof. reflexivity. Qed.

Lemma adc_pre_probe_no_phandles_run s sup1 w1 sup2 w2 :
  device_get_supply_regulator ext "vdd-supply" (vdd_supply (uc_pdata s)) (world s)
    = ((- ENOENT, sup1), w1) ->
  device_get_supply_regulator ext "vss-supply" (vss_supply (uc_pdata s)) w1
    = ((- ENOENT, sup2), w2) ->
  adc_pre_probe true ext dt s =
    (0, mk_machine w2
          (mk_platdata (data_mask (uc_pdata s)) (data_timeout_us (uc_pdata s))
             (multidata_timeout_us (uc_pdata s)) (channel_mask (uc_pdata s))
             sup1 sup2
             (dev_read_bool dt "vdd-polarity-negative" (world s))
             (dev_read_bool dt "vss-polarity-negative" w1)
             (dev_read_u32_default dt "vdd-microvolts" (- ENODATA) w1)
             (dev_read_u32_default dt "vss-microvolts" (- ENODATA) w2))
          (trace s ++ [EvGetSupplyRegulator "vdd-supply";
                       EvGetSupplyRegulator "vss-supply"])).
Proof.
  intros H1 H2.
  unfold adc_pre_probe, adc_vdd_platdata_set, adc_vss_platdata_set,
    adc_vdd_platdata_update, adc_vss_platdata_update, peek.
  unfold_monad. cbn. rewrite H1. no_phandle_step.
  rewrite H2. no_phandle_step.
  rewrite <- app_assoc. reflexivity.
Qed.

(** X19: With regulators compiled in and no supply phandle at either rail
    (both look-ups answer [-ENOENT]), the probe fills both rails from
    the device tree: the polarity flags and the static voltages, the
    latter being [-ENODATA] where the property is missing. *)
Theorem adc_pre_probe_no_phandles s sup1 w1 sup2 w2 :
  device_get_supply_regulator ext "vdd-supply" (vdd_supply (uc_pdata s)) (world s)
    = ((- ENOENT, sup1), w1) ->
  device_get_supply_regulator ext "vss-supply" (vss_supply (uc_pdata s)) w1
    = ((- ENOENT, sup2), w2) ->
  adc_pre_probe true ext dt s =
    (0, mk_machine w2
          (mk_platdata (data_mask (uc_pdata s)) (data_timeout_us (uc_pdata s))
             (multidata_timeout_us (uc_pdata s)) (channel_mask (uc_pdata s))
             sup1 sup2
             (dev_read_bool dt "vdd-polarity-negative" (world s))
             (dev_read_bool dt "vss-polarity-negative" w1)
             (dev_read_u32_default dt "vdd-microvolts" (- ENODATA) w1)
             (dev_read_u32_default dt "vss-microvolts" (- ENODATA) w2))
          (trace s ++ [EvGetSupplyRegulator "vdd-supply";
                       EvGetSupplyRegulator "vss-supply"])).
Proof. apply adc_pre_probe_no_phandles_run. Qed.

End ProbeTheory.

Section ProbeErrors.

Context {W : Type}.
Variable ext : externals W.
Variable dt : devtree W.

Implicit Types (s : machine W).

(** X20: A supply look-up that fails with an error other than [-ENOENT] -
    the regulator is not bound yet, say - does not stop the probe: it
    still returns 0 and goes on to the VSS rail.  The VDD polarity has
    been read, the static "vdd-microvolts" has not, and the cached VDD
    voltage stays as it was. *)
Theorem adc_pre_probe_swallows_errors s err sup1 w1 sup2 w2 :
  err <> 0 -> err <> - ENOENT ->
  device_get_supply_regulator ext "vdd-supply" (vdd_supply (uc_pdata s)) (world s)
    = ((err, sup1), w1) ->
  device_get_supply_regulator ext "vss-supply" (vss_supply (uc_pdata s)) w1
    = ((- ENOENT, sup2), w2) ->
  adc_pre_probe true ext dt s =
    (0, mk_machine w2
          (mk_platdata (data_mask (uc_pdata s)) (data_timeout_us (uc_pdata s))
             (multidata_timeout_us (uc_pdata s)) (channel_mask (uc_pdata s))
             sup1 sup2
             (dev_read_bool dt "vdd-polarity-negative" (world s))
             (dev_read_bool dt "vss-polarity-negative" w1)
             (vdd_microvolts (uc_pdata s))
             (dev_read_u32_default dt "vss-microvolts" (- ENODATA) w2))
          (trace s ++ [EvGetSupplyRegulator "vdd-supply";
                       EvGetSupplyRegulator "vss-supply"])).
Proof.
  intros Herr Hnoent H1 H2.
  unfold adc_pre_probe, adc_vdd_platdata_set, adc_vss_platdata_set,
    adc_vdd_platdata_update, adc_vss_platdata_update, peek.
  unfold_monad. cbn. rewrite H1. cbn.
  rewrite (proj2 (Z.eqb_neq err 0) Herr). cbn.
  rewrite (proj2 (Z.eqb_neq err (- ENOENT)) Hnoent). cbn.
  rewrite H2. no_phandle_step.
  rewrite <- app_assoc. reflexivity.
Qed.

(** X21: Probe, then resolve: on a device without a VDD supply phandle (the
    look-up answers [-ENOENT] and leaves the pointer NULL),
    [adc_vdd_value] after [adc_pre_probe] answers from the device tree:
    [-ENODATA] when "vdd-microvolts" gave the no-data default, and
    otherwise that voltage, negated when "vdd-polarity-negative" is
    set. *)
Theorem adc_vdd_value_after_probe (uV : Z) s w1 sup2 w2 :
  device_get_supply_regulator ext "vdd-supply" (vdd_supply (uc_pdata s)) (world s)
    = ((- ENOENT, None), w1) ->
  device_get_supply_regulator ext "vss-supply" (vss_supply (uc_pdata s)) w1
    = ((- ENOENT, sup2), w2) ->
  - INT_MAX <= dev_read_u32_default dt "vdd-microvolts" (- ENODATA) w1 <= INT_MAX ->
  adc_vdd_value true ext uV (adc_pre_probe true ext dt s).2 =
    (if dev_read_u32_default dt "vdd-microvolts" (- ENODATA) w1 =? - ENODATA
     then (- ENODATA, uV)
     else (0, dev_read_u32_default dt "vdd-microvolts" (- ENODATA) w1
              * (if dev_read_bool dt "vdd-polarity-negative" (world s)
                 then -1 else 1)),
     (adc_pre_probe true ext dt s).2).
Proof.
  intros H1 H2 Hv.
  rewrite (adc_pre_probe_no_phandles_run ext dt s None w1 sup2 w2 H1 H2).
  cbn [snd]. unfold adc_vdd_value. unfold_monad. cbn.
  destruct (_ =? - ENODATA); [reflexivity|].
  rewrite mul_int_sign by assumption. reflexivity.
Qed.

End ProbeErrors.

Lemma adc_pre_probe_no_phandles_witness :
  adc_pre_probe true Bench.no_phandle_ext Bench.dt
    (Sim.start (Sim.pdata 10 None None false 0))
  = (0, mk_machine O
          (mk_platdata 4095 3 3 10 None None true false 1800 (- ENODATA))
          [EvGetSupplyRegulator "vdd-supply"; EvGetSupplyRegulator "vss-supply"]).
Proof.
  exact (adc_pre_probe_no_phandles Bench.no_phandle_ext Bench.dt
           (Sim.start (Sim.pdata 10 None None false 0)) None O None O
           eq_refl eq_refl).
Defined.

Lemma adc_pre_probe_swallows_errors_witness :
  adc_pre_probe true
    (mk_externals (fun supply enable w => (0, w)) (fun supply w => (3300, w))
       (fun name old w =>
          if String.eqb name "vdd-supply"
          then ((- Sim.EIO, None), w) else ((- ENOENT, None), w))
       (fun name w => (0, w)))
    Bench.dt (Sim.start (Sim.pdata 10 None None false 7))
  = (0, mk_machine O
          (mk_platdata 4095 3 3 10 None None true false 7 (- ENODATA))
          [EvGetSupplyRegulator "vdd-supply"; EvGetSupplyRegulator "vss-supply"]).
Proof.
  exact (adc_pre_probe_swallows_errors
           (mk_externals (fun supply enable w => (0, w)) (fun supply w => (3300, w))
              (fun name old w =>
                 if String.eqb name "vdd-supply"
                 then ((- Sim.EIO, None), w) else ((- ENOENT, None), w))
              (fun name w => (0, w)))
           Bench.dt (Sim.start (Sim.pdata 10 None None false 7))
           (- Sim.EIO) None O None O
           ltac:(discriminate) ltac:(discriminate) eq_refl eq_refl).
Defined.

Lemma adc_vdd_value_after_probe_witness :
  adc_vdd_value true Bench.no_phandle_ext 0
    (adc_pre_probe true Bench.no_phandle_ext Bench.dt
       (Sim.start (Sim.pdata 10 None None false 0))).2
  = ((0, -1800),
     mk_machine O
       (mk_platdata 4095 3 3 10 None None true false 1800 (- ENODATA))
       [EvGetSupplyRegulator "vdd-supply"; EvGetSupplyRegulator "vss-supply"]).
Proof.
  refine (eq_trans
            (adc_vdd_value_after_probe Bench.no_phandle_ext Bench.dt 0
               (Sim.start (Sim.pdata 10 None None false 0)) O None O
               eq_refl eq_refl _) _).
  - vm_compute. split; discriminate.
  - vm_compute. reflexivity.
Defined.

(** ** The adc_read command *)

Lemma board_index_rk3588 (val : Z) :
  board_index 1 val =
    if val <? 916 then 0 else if val <? 1376 then 1
    else if val <? 1840 then 2 else if val <? 2380 then 3
    else if val <? 2928 then 4 else if val <? 3432 then 5
    else if val <? 3900 then 6 else if val <? 4096 then 7 else 10.
Proof. reflexivity. Qed.

Lemma board_index_rk3568 (val : Z) :
  board_index 2 val =
    if val <? 229 then 0 else if val <? 344 then 1
    else if val <? 460 then 2 else if val <? 595 then 3
    else if val <? 732 then 4 else if val <? 858 then 5
    else if val <? 975 then 6 else if val <? 1024 then 7 else 10.
Proof. reflexivity. Qed.

Lemma board_index_unknown (adc_flag val : Z) :
  adc_flag <> 1 -> adc_flag <> 2 -> board_index adc_flag val = 10.
Proof.
  intros H1 H2. unfold board_index. cbn [index_loop].
  rewrite (proj2 (Z.eqb_neq adc_flag 1) H1), (proj2 (Z.eqb_neq adc_flag 2) H2).
  reflexivity.
Qed.

(** Destructs the comparisons of a threshold chain, outermost first. *)
Ltac threshold_cases :=
  repeat match goal with
         | |- context [if ?a <? ?b then _ else _] =>
             destruct (Z.ltb_spec a b)
         end.

Lemma board_index_values (adc_flag val : Z) :
  0 <= board_index adc_flag val <= 7 \/ board_index adc_flag val = 10.
Proof.
  destruct (Z.eq_dec adc_flag 1) as [->|H1];
    [rewrite board_index_rk3588; threshold_cases; lia|].
  destruct (Z.eq_dec adc_flag 2) as [->|H2];
    [rewrite board_index_rk3568; threshold_cases; lia|].
  right. apply board_index_unknown; assumption.
Qed.

(** X22: The index the command stores is 0..7 or 10, and always 10 on a board
    that is neither of the two it knows. *)
Theorem board_index_range (adc_flag val : Z) :
  (0 <= board_index adc_flag val <= 7 \/ board_index adc_flag val = 10)
  /\ (adc_flag <> 1 -> adc_flag <> 2 -> board_index adc_flag val = 10).
Proof. split; [apply board_index_values | apply board_index_unknown]. Qed.

(** X23: On a known board the stored index is the number of thresholds of the
    board's table that the sample has reached, as long as it is below
    the last threshold; from the last threshold on it is 10. *)
Theorem board_index_counts_thresholds (val : Z) :
  board_index 1 val =
    (if val <? 4096
     then Z.of_nat (length (filter (fun t => t <= val) rk3588_index))
     else 10)
  /\ board_index 2 val =
       (if val <? 1024
        then Z.of_nat (length (filter (fun t => t <= val) rk3568_index))
        else 10).
Proof.
  rewrite board_index_rk3588, board_index_rk3568.
  unfold rk3588_index, rk3568_index. split.
  - threshold_cases; try lia;
      repeat (first [rewrite filter_cons_True by lia
                    | rewrite filter_cons_False by lia]);
      reflexivity.
  - threshold_cases; try lia;
      repeat (first [rewrite filter_cons_True by lia
                    | rewrite filter_cons_False by lia]);
      reflexivity.
Qed.

(** X24: A larger sample never gets a smaller index. *)
Theorem board_index_monotone (adc_flag val val' : Z) :
  val <= val' -> board_index adc_flag val <= board_index adc_flag val'.
Proof.
  intros Hle.
  destruct (Z.eq_dec adc_flag 1) as [->|H1];
    [rewrite !board_index_rk3588; threshold_cases; lia|].
  destruct (Z.eq_dec adc_flag 2) as [->|H2];
    [rewrite !board_index_rk3568; threshold_cases; lia|].
  rewrite !board_index_unknown by assumption. lia.
Qed.

(** X25: The rk3588 table is the rk3568 table times four: a 12-bit sample on
    the rk3588 gets the index its upper ten bits get on the rk3568. *)
Theorem board_index_rk3588_scaled (val : Z) :
  board_index 1 val = board_index 2 (val / 4).
Proof.
  rewrite board_index_rk3588, board_index_rk3568.
  threshold_cases; first [reflexivity | exfalso; Z.div_mod_to_equations; lia].
Qed.

Lemma board_index_range_witness :
  (0 <= board_index 1 2000 <= 7 \/ board_index 1 2000 = 10)
  /\ board_index 0 2000 = 10.
Proof.
  split.
  - exact (proj1 (board_index_range 1 2000)).
  - apply (proj2 (board_index_range 0 2000)); discriminate.
Defined.

Lemma board_index_monotone_witness :
  board_index 2 300 <= board_index 2 1000.
Proof. apply (board_index_monotone 2 300 1000). lia. Defined.

Lemma decimal_length (z : Z) : (1 <= String.length (decimal z))%nat.
Proof.
  unfold decimal. destruct (Z.to_int z) as [d|d]; cbn.
  - destruct d; cbn; lia.
  - lia.
Qed.

Lemma string_app_length (a b : string) :
  String.length (a +:+ b) = (String.length a + String.length b)%nat.
Proof.
  induction a as [|c a IH]; [reflexivity|].
  change (String c a +:+ b) with (String c (a +:+ b)).
  change (String.length (String c (a +:+ b))) with (S (String.length (a +:+ b))).
  rewrite IH. reflexivity.
Qed.

(** X27: The key [sprintf] writes never fits its buffer: for every channel the
    text "adc_index_<channel>" has at least 11 characters, so with the
    terminating NUL it needs more than the 11 bytes of [adc_index]. *)
Theorem sprintf_adc_index_overflows (channel : Z) :
  (ADC_INDEX_SIZE < String.length (sprintf_adc_index channel) + 1)%nat.
Proof.
  unfold sprintf_adc_index, ADC_INDEX_SIZE. rewrite string_app_length.
  pose proof (decimal_length channel). cbn. lia.
Qed.


Lemma adc_index_overrun (channel : Z) :
  (ADC_INDEX_SIZE <? String.length (sprintf_adc_index channel) + 1)%nat = true.
Proof.
  apply Nat.ltb_lt.
  unfold sprintf_adc_index, ADC_INDEX_SIZE. rewrite string_app_length.
  pose proof (decimal_length channel). cbn. lia.
Qed.

Section CommandTheory.

Context {W : Type}.
Variable regulators : bool.
Variable ops : adc_ops W.
Variable ext : externals W.
Variable cmd : cmd_env W.

Implicit Types (s : machine W).

(** X28: The command never gets to set its variable within the behaviour C
    defines, and its status does not tell whether the conversion
    worked.  With the wrong number of arguments it returns
    [CMD_RET_USAGE] and does nothing.  With one argument it runs the
    single shot on "saradc"; when that fails it returns 0, and nothing
    but the single shot has happened.  When the single shot succeeds,
    the run ends at a statement without defined behaviour, in the state
    the single shot left: at the [strcmp] on NULL when "board" is not
    set, and at the [sprintf] that overruns [adc_index] when it is. *)
Theorem do_rockchip_adc_read_status (argc : Z) (argv : list string) (val : Z) s :
  (argc <> 2 ->
   do_rockchip_adc_read regulators ops ext cmd argc argv val s
   = (Returns CMD_RET_USAGE, s))
  /\ (argc = 2 ->
      let channel := atoi cmd (default "" (argv !! 1%nat)) in
      let '((r, v), s1) :=
        adc_channel_single_shot regulators ops ext "saradc" channel val s in
      let run := do_rockchip_adc_read regulators ops ext cmd argc argv val s in
      (r <> 0 -> run = (Returns 0, s1))
      /\ (r = 0 -> env_get cmd "board" (world s1) = None ->
          run = (Faults StrcmpNull, s1))
      /\ (r = 0 -> is_Some (env_get cmd "board" (world s1)) ->
          run = (Faults SprintfOverrun, s1))).
Proof.
  split.
  - intros Hargc. unfold do_rockchip_adc_read.
    rewrite (proj2 (Z.eqb_neq argc 2) Hargc). reflexivity.
  - intros ->. cbv zeta. unfold do_rockchip_adc_read.
    change (negb (2 =? 2)) with false. cbv iota.
    unfold mbind, M_bind, peek, poke, mret, M_ret.
    destruct (adc_channel_single_shot regulators ops ext "saradc"
                (atoi cmd (default "" (argv !! 1%nat))) val s) as [[r v] s1].
    cbv beta iota zeta.
    destruct (Z.eqb_spec r 0) as [->|Hr]; cbn [negb]; cbv beta iota zeta.
    + split; [intros H; contradiction|].
      split.
      * intros _ ->. reflexivity.
      * intros _ [board ->]. rewrite adc_index_overrun. reflexivity.
    + split; [intros _; reflexivity|].
      split; intros ->; contradiction.
Qed.

End CommandTheory.

(** On the rk3588 board of [Bench.cmd], a read of channel 1 gives 101
    and the run then ends at the [sprintf]; with no "board" variable it
    ends at the [strcmp]; a failing read gives 0, and a call with one
    argument too many [CMD_RET_USAGE]. *)
Lemma do_rockchip_adc_read_status_witness :
  let s := Sim.start (Sim.pdata 10 None None false 0) in
  let s1 := (adc_channel_single_shot true (Sim.ops None) Sim.ext "saradc" 1 0 s).2 in
  let s2 := (adc_channel_single_shot true (Sim.ops (Some 1)) Sim.ext "saradc" 1 0 s).2 in
  do_rockchip_adc_read true (Sim.ops None) Sim.ext Bench.cmd 3
    ["adc_read"; "1"; "2"] 0 s
  = (Returns CMD_RET_USAGE, s)
  /\ do_rockchip_adc_read true (Sim.ops None) Sim.ext Bench.cmd 2
       ["adc_read"; "1"] 0 s
     = (Faults SprintfOverrun, s1)
  /\ do_rockchip_adc_read true (Sim.ops None) Sim.ext Bench.no_board_cmd 2
       ["adc_read"; "1"] 0 s
     = (Faults StrcmpNull, s1)
  /\ do_rockchip_adc_read true (Sim.ops (Some 1)) Sim.ext Bench.cmd 2
       ["adc_read"; "1"] 0 s
     = (Returns 0, s2).
Proof.
  intros s s1 s2.
  split; [|split; [|split]].
  - apply (proj1 (do_rockchip_adc_read_status true (Sim.ops None) Sim.ext
                    Bench.cmd 3 ["adc_read"; "1"; "2"] 0 s)).
    discriminate.
  - pose proof (proj2 (do_rockchip_adc_read_status true (Sim.ops None) Sim.ext
                         Bench.cmd 2 ["adc_read"; "1"] 0 s) eq_refl) as H.
    cbv zeta in H.
    destruct (adc_channel_single_shot true (Sim.ops None) Sim.ext "saradc"
                (atoi Bench.cmd (default "" (["adc_read"; "1"] !! 1%nat))) 0 s)
      as [[r v] s1'] eqn:E.
    vm_compute in E. injection E as <- <- <-.
    apply (proj2 (proj2 H)); [reflexivity | eexists; reflexivity].
  - pose proof (proj2 (do_rockchip_adc_read_status true (Sim.ops None) Sim.ext
                         Bench.no_board_cmd 2 ["adc_read"; "1"] 0 s) eq_refl) as H.
    cbv zeta in H.
    destruct (adc_channel_single_shot true (Sim.ops None) Sim.ext "saradc"
                (atoi Bench.no_board_cmd (default "" (["adc_read"; "1"] !! 1%nat)))
                0 s)
      as [[r v] s1'] eqn:E.
    vm_compute in E. injection E as <- <- <-.
    apply (proj1 (proj2 H)); reflexivity.
  - pose proof (proj2 (do_rockchip_adc_read_status true (Sim.ops (Some 1)) Sim.ext
                         Bench.cmd 2 ["adc_read"; "1"] 0 s) eq_refl) as H.
    cbv zeta in H.
    destruct (adc_channel_single_shot true (Sim.ops (Some 1)) Sim.ext "saradc"
                (atoi Bench.cmd (default "" (["adc_read"; "1"] !! 1%nat))) 0 s)
      as [[r v] s1'] eqn:E.
    vm_compute in E. injection E as <- <- <-.
    apply (proj1 H). discriminate.
Defined.
